(* ===================================================================== *)
(* word_cookies/solver.py : words of a dictionary spellable from a pool   *)
(* of letters.                                                            *)
(*                                                                        *)
(* A Python 3 string is a sequence of Unicode code points; it is embedded *)
(* as a seq of binary naturals.  The built-ins the program calls are      *)
(* embedded after CPython 3.11 (Unicode 14.0): str.lower() with its       *)
(* two-character form of U+0130 and its rule for the capital sigma, which *)
(* reads the characters around it; str.strip() with the whitespace of     *)
(* str.isspace(); reading in text mode with universal newlines.           *)
(* ===================================================================== *)

From Stdlib Require Import NArith Lia Ascii String.
From HB Require Import structures.
From mathcomp Require Import ssreflect ssrfun ssrbool eqtype ssrnat seq.

Set Implicit Arguments.
Unset Strict Implicit.
Unset Printing Implicit Defensive.

(* --------------------------------------------------------------------- *)
(* Characters and strings                                                 *)
(* --------------------------------------------------------------------- *)

(* A Python str value, by code points. *)
Definition str : Type := seq N.

(* A literal: s "wdro" is the str 'wdro'; the empty str is [::]. *)
Definition s (lit : string) : str :=
  [seq N_of_ascii a | a <- list_ascii_of_string lit].

(* 'A'..'Z' *)
Definition is_upper (c : N) : bool := N.leb 65 c && N.leb c 90.


(* The simple lower-case mapping of the Unicode character database
   (version 14.0), outside ASCII: each character that has a lower-case
   form other than itself, with that form.  U+0130 is not listed: its
   lower-case form has two characters (see to_lower_full). *)
Definition lowercase_table : seq (N * N) := [::
  (192, 224); (193, 225); (194, 226); (195, 227); (196, 228); (197, 229);
  (198, 230); (199, 231); (200, 232); (201, 233); (202, 234); (203, 235);
  (204, 236); (205, 237); (206, 238); (207, 239); (208, 240); (209, 241);
  (210, 242); (211, 243); (212, 244); (213, 245); (214, 246); (216, 248);
  (217, 249); (218, 250); (219, 251); (220, 252); (221, 253); (222, 254);
  (256, 257); (258, 259); (260, 261); (262, 263); (264, 265); (266, 267);
  (268, 269); (270, 271); (272, 273); (274, 275); (276, 277); (278, 279);
  (280, 281); (282, 283); (284, 285); (286, 287); (288, 289); (290, 291);
  (292, 293); (294, 295); (296, 297); (298, 299); (300, 301); (302, 303);
  (306, 307); (308, 309); (310, 311); (313, 314); (315, 316); (317, 318);
  (319, 320); (321, 322); (323, 324); (325, 326); (327, 328); (330, 331);
  (332, 333); (334, 335); (336, 337); (338, 339); (340, 341); (342, 343);
  (344, 345); (346, 347); (348, 349); (350, 351); (352, 353); (354, 355);
  (356, 357); (358, 359); (360, 361); (362, 363); (364, 365); (366, 367);
  (368, 369); (370, 371); (372, 373); (374, 375); (376, 255); (377, 378);
  (379, 380); (381, 382); (385, 595); (386, 387); (388, 389); (390, 596);
  (391, 392); (393, 598); (394, 599); (395, 396); (398, 477); (399, 601);
  (400, 603); (401, 402); (403, 608); (404, 611); (406, 617); (407, 616);
  (408, 409); (412, 623); (413, 626); (415, 629); (416, 417); (418, 419);
  (420, 421); (422, 640); (423, 424); (425, 643); (428, 429); (430, 648);
  (431, 432); (433, 650); (434, 651); (435, 436); (437, 438); (439, 658);
  (440, 441); (444, 445); (452, 454); (453, 454); (455, 457); (456, 457);
  (458, 460); (459, 460); (461, 462); (463, 464); (465, 466); (467, 468);
  (469, 470); (471, 472); (473, 474); (475, 476); (478, 479); (480, 481);
  (482, 483); (484, 485); (486, 487); (488, 489); (490, 491); (492, 493);
  (494, 495); (497, 499); (498, 499); (500, 501); (502, 405); (503, 447);
  (504, 505); (506, 507); (508, 509); (510, 511); (512, 513); (514, 515);
  (516, 517); (518, 519); (520, 521); (522, 523); (524, 525); (526, 527);
  (528, 529); (530, 531); (532, 533); (534, 535); (536, 537); (538, 539);
  (540, 541); (542, 543); (544, 414); (546, 547); (548, 549); (550, 551);
  (552, 553); (554, 555); (556, 557); (558, 559); (560, 561); (562, 563);
  (570, 11365); (571, 572); (573, 410); (574, 11366); (577, 578); (579, 384);
  (580, 649); (581, 652); (582, 583); (584, 585); (586, 587); (588, 589);
  (590, 591); (880, 881); (882, 883); (886, 887); (895, 1011); (902, 940);
  (904, 941); (905, 942); (906, 943); (908, 972); (910, 973); (911, 974);
  (913, 945); (914, 946); (915, 947); (916, 948); (917, 949); (918, 950);
  (919, 951); (920, 952); (921, 953); (922, 954); (923, 955); (924, 956);
  (925, 957); (926, 958); (927, 959); (928, 960); (929, 961); (931, 963);
  (932, 964); (933, 965); (934, 966); (935, 967); (936, 968); (937, 969);
  (938, 970); (939, 971); (975, 983); (984, 985); (986, 987); (988, 989);
  (990, 991); (992, 993); (994, 995); (996, 997); (998, 999); (1000, 1001);
  (1002, 1003); (1004, 1005); (1006, 1007); (1012, 952); (1015, 1016); (1017, 1010);
  (1018, 1019); (1021, 891); (1022, 892); (1023, 893); (1024, 1104); (1025, 1105);
  (1026, 1106); (1027, 1107); (1028, 1108); (1029, 1109); (1030, 1110); (1031, 1111);
  (1032, 1112); (1033, 1113); (1034, 1114); (1035, 1115); (1036, 1116); (1037, 1117);
  (1038, 1118); (1039, 1119); (1040, 1072); (1041, 1073); (1042, 1074); (1043, 1075);
  (1044, 1076); (1045, 1077); (1046, 1078); (1047, 1079); (1048, 1080); (1049, 1081);
  (1050, 1082); (1051, 1083); (1052, 1084); (1053, 1085); (1054, 1086); (1055, 1087);
  (1056, 1088); (1057, 1089); (1058, 1090); (1059, 1091); (1060, 1092); (1061, 1093);
  (1062, 1094); (1063, 1095); (1064, 1096); (1065, 1097); (1066, 1098); (1067, 1099);
  (1068, 1100); (1069, 1101); (1070, 1102); (1071, 1103); (1120, 1121); (1122, 1123);
  (1124, 1125); (1126, 1127); (1128, 1129); (1130, 1131); (1132, 1133); (1134, 1135);
  (1136, 1137); (1138, 1139); (1140, 1141); (1142, 1143); (1144, 1145); (1146, 1147);
  (1148, 1149); (1150, 1151); (1152, 1153); (1162, 1163); (1164, 1165); (1166, 1167);
  (1168, 1169); (1170, 1171); (1172, 1173); (1174, 1175); (1176, 1177); (1178, 1179);
  (1180, 1181); (1182, 1183); (1184, 1185); (1186, 1187); (1188, 1189); (1190, 1191);
  (1192, 1193); (1194, 1195); (1196, 1197); (1198, 1199); (1200, 1201); (1202, 1203);
  (1204, 1205); (1206, 1207); (1208, 1209); (1210, 1211); (1212, 1213); (1214, 1215);
  (1216, 1231); (1217, 1218); (1219, 1220); (1221, 1222); (1223, 1224); (1225, 1226);
  (1227, 1228); (1229, 1230); (1232, 1233); (1234, 1235); (1236, 1237); (1238, 1239);
  (1240, 1241); (1242, 1243); (1244, 1245); (1246, 1247); (1248, 1249); (1250, 1251);
  (1252, 1253); (1254, 1255); (1256, 1257); (1258, 1259); (1260, 1261); (1262, 1263);
  (1264, 1265); (1266, 1267); (1268, 1269); (1270, 1271); (1272, 1273); (1274, 1275);
  (1276, 1277); (1278, 1279); (1280, 1281); (1282, 1283); (1284, 1285); (1286, 1287);
  (1288, 1289); (1290, 1291); (1292, 1293); (1294, 1295); (1296, 1297); (1298, 1299);
  (1300, 1301); (1302, 1303); (1304, 1305); (1306, 1307); (1308, 1309); (1310, 1311);
  (1312, 1313); (1314, 1315); (1316, 1317); (1318, 1319); (1320, 1321); (1322, 1323);
  (1324, 1325); (1326, 1327); (1329, 1377); (1330, 1378); (1331, 1379); (1332, 1380);
  (1333, 1381); (1334, 1382); (1335, 1383); (1336, 1384); (1337, 1385); (1338, 1386);
  (1339, 1387); (1340, 1388); (1341, 1389); (1342, 1390); (1343, 1391); (1344, 1392);
  (1345, 1393); (1346, 1394); (1347, 1395); (1348, 1396); (1349, 1397); (1350, 1398);
  (1351, 1399); (1352, 1400); (1353, 1401); (1354, 1402); (1355, 1403); (1356, 1404);
  (1357, 1405); (1358, 1406); (1359, 1407); (1360, 1408); (1361, 1409); (1362, 1410);
  (1363, 1411); (1364, 1412); (1365, 1413); (1366, 1414); (4256, 11520); (4257, 11521);
  (4258, 11522); (4259, 11523); (4260, 11524); (4261, 11525); (4262, 11526); (4263, 11527);
  (4264, 11528); (4265, 11529); (4266, 11530); (4267, 11531); (4268, 11532); (4269, 11533);
  (4270, 11534); (4271, 11535); (4272, 11536); (4273, 11537); (4274, 11538); (4275, 11539);
  (4276, 11540); (4277, 11541); (4278, 11542); (4279, 11543); (4280, 11544); (4281, 11545);
  (4282, 11546); (4283, 11547); (4284, 11548); (4285, 11549); (4286, 11550); (4287, 11551);
  (4288, 11552); (4289, 11553); (4290, 11554); (4291, 11555); (4292, 11556); (4293, 11557);
  (4295, 11559); (4301, 11565); (5024, 43888); (5025, 43889); (5026, 43890); (5027, 43891);
  (5028, 43892); (5029, 43893); (5030, 43894); (5031, 43895); (5032, 43896); (5033, 43897);
  (5034, 43898); (5035, 43899); (5036, 43900); (5037, 43901); (5038, 43902); (5039, 43903);
  (5040, 43904); (5041, 43905); (5042, 43906); (5043, 43907); (5044, 43908); (5045, 43909);
  (5046, 43910); (5047, 43911); (5048, 43912); (5049, 43913); (5050, 43914); (5051, 43915);
  (5052, 43916); (5053, 43917); (5054, 43918); (5055, 43919); (5056, 43920); (5057, 43921);
  (5058, 43922); (5059, 43923); (5060, 43924); (5061, 43925); (5062, 43926); (5063, 43927);
  (5064, 43928); (5065, 43929); (5066, 43930); (5067, 43931); (5068, 43932); (5069, 43933);
  (5070, 43934); (5071, 43935); (5072, 43936); (5073, 43937); (5074, 43938); (5075, 43939);
  (5076, 43940); (5077, 43941); (5078, 43942); (5079, 43943); (5080, 43944); (5081, 43945);
  (5082, 43946); (5083, 43947); (5084, 43948); (5085, 43949); (5086, 43950); (5087, 43951);
  (5088, 43952); (5089, 43953); (5090, 43954); (5091, 43955); (5092, 43956); (5093, 43957);
  (5094, 43958); (5095, 43959); (5096, 43960); (5097, 43961); (5098, 43962); (5099, 43963);
  (5100, 43964); (5101, 43965); (5102, 43966); (5103, 43967); (5104, 5112); (5105, 5113);
  (5106, 5114); (5107, 5115); (5108, 5116); (5109, 5117); (7312, 4304); (7313, 4305);
  (7314, 4306); (7315, 4307); (7316, 4308); (7317, 4309); (7318, 4310); (7319, 4311);
  (7320, 4312); (7321, 4313); (7322, 4314); (7323, 4315); (7324, 4316); (7325, 4317);
  (7326, 4318); (7327, 4319); (7328, 4320); (7329, 4321); (7330, 4322); (7331, 4323);
  (7332, 4324); (7333, 4325); (7334, 4326); (7335, 4327); (7336, 4328); (7337, 4329);
  (7338, 4330); (7339, 4331); (7340, 4332); (7341, 4333); (7342, 4334); (7343, 4335);
  (7344, 4336); (7345, 4337); (7346, 4338); (7347, 4339); (7348, 4340); (7349, 4341);
  (7350, 4342); (7351, 4343); (7352, 4344); (7353, 4345); (7354, 4346); (7357, 4349);
  (7358, 4350); (7359, 4351); (7680, 7681); (7682, 7683); (7684, 7685); (7686, 7687);
  (7688, 7689); (7690, 7691); (7692, 7693); (7694, 7695); (7696, 7697); (7698, 7699);
  (7700, 7701); (7702, 7703); (7704, 7705); (7706, 7707); (7708, 7709); (7710, 7711);
  (7712, 7713); (7714, 7715); (7716, 7717); (7718, 7719); (7720, 7721); (7722, 7723);
  (7724, 7725); (7726, 7727); (7728, 7729); (7730, 7731); (7732, 7733); (7734, 7735);
  (7736, 7737); (7738, 7739); (7740, 7741); (7742, 7743); (7744, 7745); (7746, 7747);
  (7748, 7749); (7750, 7751); (7752, 7753); (7754, 7755); (7756, 7757); (7758, 7759);
  (7760, 7761); (7762, 7763); (7764, 7765); (7766, 7767); (7768, 7769); (7770, 7771);
  (7772, 7773); (7774, 7775); (7776, 7777); (7778, 7779); (7780, 7781); (7782, 7783);
  (7784, 7785); (7786, 7787); (7788, 7789); (7790, 7791); (7792, 7793); (7794, 7795);
  (7796, 7797); (7798, 7799); (7800, 7801); (7802, 7803); (7804, 7805); (7806, 7807);
  (7808, 7809); (7810, 7811); (7812, 7813); (7814, 7815); (7816, 7817); (7818, 7819);
  (7820, 7821); (7822, 7823); (7824, 7825); (7826, 7827); (7828, 7829); (7838, 223);
  (7840, 7841); (7842, 7843); (7844, 7845); (7846, 7847); (7848, 7849); (7850, 7851);
  (7852, 7853); (7854, 7855); (7856, 7857); (7858, 7859); (7860, 7861); (7862, 7863);
  (7864, 7865); (7866, 7867); (7868, 7869); (7870, 7871); (7872, 7873); (7874, 7875);
  (7876, 7877); (7878, 7879); (7880, 7881); (7882, 7883); (7884, 7885); (7886, 7887);
  (7888, 7889); (7890, 7891); (7892, 7893); (7894, 7895); (7896, 7897); (7898, 7899);
  (7900, 7901); (7902, 7903); (7904, 7905); (7906, 7907); (7908, 7909); (7910, 7911);
  (7912, 7913); (7914, 7915); (7916, 7917); (7918, 7919); (7920, 7921); (7922, 7923);
  (7924, 7925); (7926, 7927); (7928, 7929); (7930, 7931); (7932, 7933); (7934, 7935);
  (7944, 7936); (7945, 7937); (7946, 7938); (7947, 7939); (7948, 7940); (7949, 7941);
  (7950, 7942); (7951, 7943); (7960, 7952); (7961, 7953); (7962, 7954); (7963, 7955);
  (7964, 7956); (7965, 7957); (7976, 7968); (7977, 7969); (7978, 7970); (7979, 7971);
  (7980, 7972); (7981, 7973); (7982, 7974); (7983, 7975); (7992, 7984); (7993, 7985);
  (7994, 7986); (7995, 7987); (7996, 7988); (7997, 7989); (7998, 7990); (7999, 7991);
  (8008, 8000); (8009, 8001); (8010, 8002); (8011, 8003); (8012, 8004); (8013, 8005);
  (8025, 8017); (8027, 8019); (8029, 8021); (8031, 8023); (8040, 8032); (8041, 8033);
  (8042, 8034); (8043, 8035); (8044, 8036); (8045, 8037); (8046, 8038); (8047, 8039);
  (8072, 8064); (8073, 8065); (8074, 8066); (8075, 8067); (8076, 8068); (8077, 8069);
  (8078, 8070); (8079, 8071); (8088, 8080); (8089, 8081); (8090, 8082); (8091, 8083);
  (8092, 8084); (8093, 8085); (8094, 8086); (8095, 8087); (8104, 8096); (8105, 8097);
  (8106, 8098); (8107, 8099); (8108, 8100); (8109, 8101); (8110, 8102); (8111, 8103);
  (8120, 8112); (8121, 8113); (8122, 8048); (8123, 8049); (8124, 8115); (8136, 8050);
  (8137, 8051); (8138, 8052); (8139, 8053); (8140, 8131); (8152, 8144); (8153, 8145);
  (8154, 8054); (8155, 8055); (8168, 8160); (8169, 8161); (8170, 8058); (8171, 8059);
  (8172, 8165); (8184, 8056); (8185, 8057); (8186, 8060); (8187, 8061); (8188, 8179);
  (8486, 969); (8490, 107); (8491, 229); (8498, 8526); (8544, 8560); (8545, 8561);
  (8546, 8562); (8547, 8563); (8548, 8564); (8549, 8565); (8550, 8566); (8551, 8567);
  (8552, 8568); (8553, 8569); (8554, 8570); (8555, 8571); (8556, 8572); (8557, 8573);
  (8558, 8574); (8559, 8575); (8579, 8580); (9398, 9424); (9399, 9425); (9400, 9426);
  (9401, 9427); (9402, 9428); (9403, 9429); (9404, 9430); (9405, 9431); (9406, 9432);
  (9407, 9433); (9408, 9434); (9409, 9435); (9410, 9436); (9411, 9437); (9412, 9438);
  (9413, 9439); (9414, 9440); (9415, 9441); (9416, 9442); (9417, 9443); (9418, 9444);
  (9419, 9445); (9420, 9446); (9421, 9447); (9422, 9448); (9423, 9449); (11264, 11312);
  (11265, 11313); (11266, 11314); (11267, 11315); (11268, 11316); (11269, 11317); (11270, 11318);
  (11271, 11319); (11272, 11320); (11273, 11321); (11274, 11322); (11275, 11323); (11276, 11324);
  (11277, 11325); (11278, 11326); (11279, 11327); (11280, 11328); (11281, 11329); (11282, 11330);
  (11283, 11331); (11284, 11332); (11285, 11333); (11286, 11334); (11287, 11335); (11288, 11336);
  (11289, 11337); (11290, 11338); (11291, 11339); (11292, 11340); (11293, 11341); (11294, 11342);
  (11295, 11343); (11296, 11344); (11297, 11345); (11298, 11346); (11299, 11347); (11300, 11348);
  (11301, 11349); (11302, 11350); (11303, 11351); (11304, 11352); (11305, 11353); (11306, 11354);
  (11307, 11355); (11308, 11356); (11309, 11357); (11310, 11358); (11311, 11359); (11360, 11361);
  (11362, 619); (11363, 7549); (11364, 637); (11367, 11368); (11369, 11370); (11371, 11372);
  (11373, 593); (11374, 625); (11375, 592); (11376, 594); (11378, 11379); (11381, 11382);
  (11390, 575); (11391, 576); (11392, 11393); (11394, 11395); (11396, 11397); (11398, 11399);
  (11400, 11401); (11402, 11403); (11404, 11405); (11406, 11407); (11408, 11409); (11410, 11411);
  (11412, 11413); (11414, 11415); (11416, 11417); (11418, 11419); (11420, 11421); (11422, 11423);
  (11424, 11425); (11426, 11427); (11428, 11429); (11430, 11431); (11432, 11433); (11434, 11435);
  (11436, 11437); (11438, 11439); (11440, 11441); (11442, 11443); (11444, 11445); (11446, 11447);
  (11448, 11449); (11450, 11451); (11452, 11453); (11454, 11455); (11456, 11457); (11458, 11459);
  (11460, 11461); (11462, 11463); (11464, 11465); (11466, 11467); (11468, 11469); (11470, 11471);
  (11472, 11473); (11474, 11475); (11476, 11477); (11478, 11479); (11480, 11481); (11482, 11483);
  (11484, 11485); (11486, 11487); (11488, 11489); (11490, 11491); (11499, 11500); (11501, 11502);
  (11506, 11507); (42560, 42561); (42562, 42563); (42564, 42565); (42566, 42567); (42568, 42569);
  (42570, 42571); (42572, 42573); (42574, 42575); (42576, 42577); (42578, 42579); (42580, 42581);
  (42582, 42583); (42584, 42585); (42586, 42587); (42588, 42589); (42590, 42591); (42592, 42593);
  (42594, 42595); (42596, 42597); (42598, 42599); (42600, 42601); (42602, 42603); (42604, 42605);
  (42624, 42625); (42626, 42627); (42628, 42629); (42630, 42631); (42632, 42633); (42634, 42635);
  (42636, 42637); (42638, 42639); (42640, 42641); (42642, 42643); (42644, 42645); (42646, 42647);
  (42648, 42649); (42650, 42651); (42786, 42787); (42788, 42789); (42790, 42791); (42792, 42793);
  (42794, 42795); (42796, 42797); (42798, 42799); (42802, 42803); (42804, 42805); (42806, 42807);
  (42808, 42809); (42810, 42811); (42812, 42813); (42814, 42815); (42816, 42817); (42818, 42819);
  (42820, 42821); (42822, 42823); (42824, 42825); (42826, 42827); (42828, 42829); (42830, 42831);
  (42832, 42833); (42834, 42835); (42836, 42837); (42838, 42839); (42840, 42841); (42842, 42843);
  (42844, 42845); (42846, 42847); (42848, 42849); (42850, 42851); (42852, 42853); (42854, 42855);
  (42856, 42857); (42858, 42859); (42860, 42861); (42862, 42863); (42873, 42874); (42875, 42876);
  (42877, 7545); (42878, 42879); (42880, 42881); (42882, 42883); (42884, 42885); (42886, 42887);
  (42891, 42892); (42893, 613); (42896, 42897); (42898, 42899); (42902, 42903); (42904, 42905);
  (42906, 42907); (42908, 42909); (42910, 42911); (42912, 42913); (42914, 42915); (42916, 42917);
  (42918, 42919); (42920, 42921); (42922, 614); (42923, 604); (42924, 609); (42925, 620);
  (42926, 618); (42928, 670); (42929, 647); (42930, 669); (42931, 43859); (42932, 42933);
  (42934, 42935); (42936, 42937); (42938, 42939); (42940, 42941); (42942, 42943); (42944, 42945);
  (42946, 42947); (42948, 42900); (42949, 642); (42950, 7566); (42951, 42952); (42953, 42954);
  (42960, 42961); (42966, 42967); (42968, 42969); (42997, 42998); (65313, 65345); (65314, 65346);
  (65315, 65347); (65316, 65348); (65317, 65349); (65318, 65350); (65319, 65351); (65320, 65352);
  (65321, 65353); (65322, 65354); (65323, 65355); (65324, 65356); (65325, 65357); (65326, 65358);
  (65327, 65359); (65328, 65360); (65329, 65361); (65330, 65362); (65331, 65363); (65332, 65364);
  (65333, 65365); (65334, 65366); (65335, 65367); (65336, 65368); (65337, 65369); (65338, 65370);
  (66560, 66600); (66561, 66601); (66562, 66602); (66563, 66603); (66564, 66604); (66565, 66605);
  (66566, 66606); (66567, 66607); (66568, 66608); (66569, 66609); (66570, 66610); (66571, 66611);
  (66572, 66612); (66573, 66613); (66574, 66614); (66575, 66615); (66576, 66616); (66577, 66617);
  (66578, 66618); (66579, 66619); (66580, 66620); (66581, 66621); (66582, 66622); (66583, 66623);
  (66584, 66624); (66585, 66625); (66586, 66626); (66587, 66627); (66588, 66628); (66589, 66629);
  (66590, 66630); (66591, 66631); (66592, 66632); (66593, 66633); (66594, 66634); (66595, 66635);
  (66596, 66636); (66597, 66637); (66598, 66638); (66599, 66639); (66736, 66776); (66737, 66777);
  (66738, 66778); (66739, 66779); (66740, 66780); (66741, 66781); (66742, 66782); (66743, 66783);
  (66744, 66784); (66745, 66785); (66746, 66786); (66747, 66787); (66748, 66788); (66749, 66789);
  (66750, 66790); (66751, 66791); (66752, 66792); (66753, 66793); (66754, 66794); (66755, 66795);
  (66756, 66796); (66757, 66797); (66758, 66798); (66759, 66799); (66760, 66800); (66761, 66801);
  (66762, 66802); (66763, 66803); (66764, 66804); (66765, 66805); (66766, 66806); (66767, 66807);
  (66768, 66808); (66769, 66809); (66770, 66810); (66771, 66811); (66928, 66967); (66929, 66968);
  (66930, 66969); (66931, 66970); (66932, 66971); (66933, 66972); (66934, 66973); (66935, 66974);
  (66936, 66975); (66937, 66976); (66938, 66977); (66940, 66979); (66941, 66980); (66942, 66981);
  (66943, 66982); (66944, 66983); (66945, 66984); (66946, 66985); (66947, 66986); (66948, 66987);
  (66949, 66988); (66950, 66989); (66951, 66990); (66952, 66991); (66953, 66992); (66954, 66993);
  (66956, 66995); (66957, 66996); (66958, 66997); (66959, 66998); (66960, 66999); (66961, 67000);
  (66962, 67001); (66964, 67003); (66965, 67004); (68736, 68800); (68737, 68801); (68738, 68802);
  (68739, 68803); (68740, 68804); (68741, 68805); (68742, 68806); (68743, 68807); (68744, 68808);
  (68745, 68809); (68746, 68810); (68747, 68811); (68748, 68812); (68749, 68813); (68750, 68814);
  (68751, 68815); (68752, 68816); (68753, 68817); (68754, 68818); (68755, 68819); (68756, 68820);
  (68757, 68821); (68758, 68822); (68759, 68823); (68760, 68824); (68761, 68825); (68762, 68826);
  (68763, 68827); (68764, 68828); (68765, 68829); (68766, 68830); (68767, 68831); (68768, 68832);
  (68769, 68833); (68770, 68834); (68771, 68835); (68772, 68836); (68773, 68837); (68774, 68838);
  (68775, 68839); (68776, 68840); (68777, 68841); (68778, 68842); (68779, 68843); (68780, 68844);
  (68781, 68845); (68782, 68846); (68783, 68847); (68784, 68848); (68785, 68849); (68786, 68850);
  (71840, 71872); (71841, 71873); (71842, 71874); (71843, 71875); (71844, 71876); (71845, 71877);
  (71846, 71878); (71847, 71879); (71848, 71880); (71849, 71881); (71850, 71882); (71851, 71883);
  (71852, 71884); (71853, 71885); (71854, 71886); (71855, 71887); (71856, 71888); (71857, 71889);
  (71858, 71890); (71859, 71891); (71860, 71892); (71861, 71893); (71862, 71894); (71863, 71895);
  (71864, 71896); (71865, 71897); (71866, 71898); (71867, 71899); (71868, 71900); (71869, 71901);
  (71870, 71902); (71871, 71903); (93760, 93792); (93761, 93793); (93762, 93794); (93763, 93795);
  (93764, 93796); (93765, 93797); (93766, 93798); (93767, 93799); (93768, 93800); (93769, 93801);
  (93770, 93802); (93771, 93803); (93772, 93804); (93773, 93805); (93774, 93806); (93775, 93807);
  (93776, 93808); (93777, 93809); (93778, 93810); (93779, 93811); (93780, 93812); (93781, 93813);
  (93782, 93814); (93783, 93815); (93784, 93816); (93785, 93817); (93786, 93818); (93787, 93819);
  (93788, 93820); (93789, 93821); (93790, 93822); (93791, 93823); (125184, 125218); (125185, 125219);
  (125186, 125220); (125187, 125221); (125188, 125222); (125189, 125223); (125190, 125224); (125191, 125225);
  (125192, 125226); (125193, 125227); (125194, 125228); (125195, 125229); (125196, 125230); (125197, 125231);
  (125198, 125232); (125199, 125233); (125200, 125234); (125201, 125235); (125202, 125236); (125203, 125237);
  (125204, 125238); (125205, 125239); (125206, 125240); (125207, 125241); (125208, 125242); (125209, 125243);
  (125210, 125244); (125211, 125245); (125212, 125246); (125213, 125247); (125214, 125248); (125215, 125249);
  (125216, 125250); (125217, 125251)]%num.

(* The characters with the property Cased, as ranges first..last. *)
Definition cased_ranges : seq (N * N) := [::
  (65, 90); (97, 122); (170, 170); (181, 181); (186, 186); (192, 214);
  (216, 246); (248, 442); (444, 447); (452, 659); (661, 696); (704, 705);
  (736, 740); (837, 837); (880, 883); (886, 887); (890, 893); (895, 895);
  (902, 902); (904, 906); (908, 908); (910, 929); (931, 1013); (1015, 1153);
  (1162, 1327); (1329, 1366); (1376, 1416); (4256, 4293); (4295, 4295); (4301, 4301);
  (4304, 4346); (4349, 4351); (5024, 5109); (5112, 5117); (7296, 7304); (7312, 7354);
  (7357, 7359); (7424, 7615); (7680, 7957); (7960, 7965); (7968, 8005); (8008, 8013);
  (8016, 8023); (8025, 8025); (8027, 8027); (8029, 8029); (8031, 8061); (8064, 8116);
  (8118, 8124); (8126, 8126); (8130, 8132); (8134, 8140); (8144, 8147); (8150, 8155);
  (8160, 8172); (8178, 8180); (8182, 8188); (8305, 8305); (8319, 8319); (8336, 8348);
  (8450, 8450); (8455, 8455); (8458, 8467); (8469, 8469); (8473, 8477); (8484, 8484);
  (8486, 8486); (8488, 8488); (8490, 8493); (8495, 8500); (8505, 8505); (8508, 8511);
  (8517, 8521); (8526, 8526); (8544, 8575); (8579, 8580); (9398, 9449); (11264, 11492);
  (11499, 11502); (11506, 11507); (11520, 11557); (11559, 11559); (11565, 11565); (42560, 42605);
  (42624, 42653); (42786, 42887); (42891, 42894); (42896, 42954); (42960, 42961); (42963, 42963);
  (42965, 42969); (42997, 42998); (43000, 43002); (43824, 43866); (43868, 43880); (43888, 43967);
  (64256, 64262); (64275, 64279); (65313, 65338); (65345, 65370); (66560, 66639); (66736, 66771);
  (66776, 66811); (66928, 66938); (66940, 66954); (66956, 66962); (66964, 66965); (66967, 66977);
  (66979, 66993); (66995, 67001); (67003, 67004); (67456, 67456); (67459, 67461); (67463, 67504);
  (67506, 67514); (68736, 68786); (68800, 68850); (71840, 71903); (93760, 93823); (119808, 119892);
  (119894, 119964); (119966, 119967); (119970, 119970); (119973, 119974); (119977, 119980); (119982, 119993);
  (119995, 119995); (119997, 120003); (120005, 120069); (120071, 120074); (120077, 120084); (120086, 120092);
  (120094, 120121); (120123, 120126); (120128, 120132); (120134, 120134); (120138, 120144); (120146, 120485);
  (120488, 120512); (120514, 120538); (120540, 120570); (120572, 120596); (120598, 120628); (120630, 120654);
  (120656, 120686); (120688, 120712); (120714, 120744); (120746, 120770); (120772, 120779); (122624, 122633);
  (122635, 122654); (125184, 125251); (127280, 127305); (127312, 127337); (127344, 127369)]%num.

(* The characters with the property Case_Ignorable, as ranges
   first..last. *)
Definition case_ignorable_ranges : seq (N * N) := [::
  (39, 39); (46, 46); (58, 58); (94, 94); (96, 96); (168, 168);
  (173, 173); (175, 175); (180, 180); (183, 184); (688, 879); (884, 885);
  (890, 890); (900, 901); (903, 903); (1155, 1161); (1369, 1369); (1375, 1375);
  (1425, 1469); (1471, 1471); (1473, 1474); (1476, 1477); (1479, 1479); (1524, 1524);
  (1536, 1541); (1552, 1562); (1564, 1564); (1600, 1600); (1611, 1631); (1648, 1648);
  (1750, 1757); (1759, 1768); (1770, 1773); (1807, 1807); (1809, 1809); (1840, 1866);
  (1958, 1968); (2027, 2037); (2042, 2042); (2045, 2045); (2070, 2093); (2137, 2139);
  (2184, 2184); (2192, 2193); (2200, 2207); (2249, 2306); (2362, 2362); (2364, 2364);
  (2369, 2376); (2381, 2381); (2385, 2391); (2402, 2403); (2417, 2417); (2433, 2433);
  (2492, 2492); (2497, 2500); (2509, 2509); (2530, 2531); (2558, 2558); (2561, 2562);
  (2620, 2620); (2625, 2626); (2631, 2632); (2635, 2637); (2641, 2641); (2672, 2673);
  (2677, 2677); (2689, 2690); (2748, 2748); (2753, 2757); (2759, 2760); (2765, 2765);
  (2786, 2787); (2810, 2815); (2817, 2817); (2876, 2876); (2879, 2879); (2881, 2884);
  (2893, 2893); (2901, 2902); (2914, 2915); (2946, 2946); (3008, 3008); (3021, 3021);
  (3072, 3072); (3076, 3076); (3132, 3132); (3134, 3136); (3142, 3144); (3146, 3149);
  (3157, 3158); (3170, 3171); (3201, 3201); (3260, 3260); (3263, 3263); (3270, 3270);
  (3276, 3277); (3298, 3299); (3328, 3329); (3387, 3388); (3393, 3396); (3405, 3405);
  (3426, 3427); (3457, 3457); (3530, 3530); (3538, 3540); (3542, 3542); (3633, 3633);
  (3636, 3642); (3654, 3662); (3761, 3761); (3764, 3772); (3782, 3782); (3784, 3789);
  (3864, 3865); (3893, 3893); (3895, 3895); (3897, 3897); (3953, 3966); (3968, 3972);
  (3974, 3975); (3981, 3991); (3993, 4028); (4038, 4038); (4141, 4144); (4146, 4151);
  (4153, 4154); (4157, 4158); (4184, 4185); (4190, 4192); (4209, 4212); (4226, 4226);
  (4229, 4230); (4237, 4237); (4253, 4253); (4348, 4348); (4957, 4959); (5906, 5908);
  (5938, 5939); (5970, 5971); (6002, 6003); (6068, 6069); (6071, 6077); (6086, 6086);
  (6089, 6099); (6103, 6103); (6109, 6109); (6155, 6159); (6211, 6211); (6277, 6278);
  (6313, 6313); (6432, 6434); (6439, 6440); (6450, 6450); (6457, 6459); (6679, 6680);
  (6683, 6683); (6742, 6742); (6744, 6750); (6752, 6752); (6754, 6754); (6757, 6764);
  (6771, 6780); (6783, 6783); (6823, 6823); (6832, 6862); (6912, 6915); (6964, 6964);
  (6966, 6970); (6972, 6972); (6978, 6978); (7019, 7027); (7040, 7041); (7074, 7077);
  (7080, 7081); (7083, 7085); (7142, 7142); (7144, 7145); (7149, 7149); (7151, 7153);
  (7212, 7219); (7222, 7223); (7288, 7293); (7376, 7378); (7380, 7392); (7394, 7400);
  (7405, 7405); (7412, 7412); (7416, 7417); (7468, 7530); (7544, 7544); (7579, 7679);
  (8125, 8125); (8127, 8129); (8141, 8143); (8157, 8159); (8173, 8175); (8189, 8190);
  (8203, 8207); (8216, 8217); (8228, 8228); (8231, 8231); (8234, 8238); (8288, 8292);
  (8294, 8303); (8305, 8305); (8319, 8319); (8336, 8348); (8400, 8432); (11388, 11389);
  (11503, 11505); (11631, 11631); (11647, 11647); (11744, 11775); (11823, 11823); (12293, 12293);
  (12330, 12333); (12337, 12341); (12347, 12347); (12441, 12446); (12540, 12542); (40981, 40981);
  (42232, 42237); (42508, 42508); (42607, 42610); (42612, 42621); (42623, 42623); (42652, 42655);
  (42736, 42737); (42752, 42785); (42864, 42864); (42888, 42890); (42994, 42996); (43000, 43001);
  (43010, 43010); (43014, 43014); (43019, 43019); (43045, 43046); (43052, 43052); (43204, 43205);
  (43232, 43249); (43263, 43263); (43302, 43309); (43335, 43345); (43392, 43394); (43443, 43443);
  (43446, 43449); (43452, 43453); (43471, 43471); (43493, 43494); (43561, 43566); (43569, 43570);
  (43573, 43574); (43587, 43587); (43596, 43596); (43632, 43632); (43644, 43644); (43696, 43696);
  (43698, 43700); (43703, 43704); (43710, 43711); (43713, 43713); (43741, 43741); (43756, 43757);
  (43763, 43764); (43766, 43766); (43867, 43871); (43881, 43883); (44005, 44005); (44008, 44008);
  (44013, 44013); (64286, 64286); (64434, 64450); (65024, 65039); (65043, 65043); (65056, 65071);
  (65106, 65106); (65109, 65109); (65279, 65279); (65287, 65287); (65294, 65294); (65306, 65306);
  (65342, 65342); (65344, 65344); (65392, 65392); (65438, 65439); (65507, 65507); (65529, 65531);
  (66045, 66045); (66272, 66272); (66422, 66426); (67456, 67461); (67463, 67504); (67506, 67514);
  (68097, 68099); (68101, 68102); (68108, 68111); (68152, 68154); (68159, 68159); (68325, 68326);
  (68900, 68903); (69291, 69292); (69446, 69456); (69506, 69509); (69633, 69633); (69688, 69702);
  (69744, 69744); (69747, 69748); (69759, 69761); (69811, 69814); (69817, 69818); (69821, 69821);
  (69826, 69826); (69837, 69837); (69888, 69890); (69927, 69931); (69933, 69940); (70003, 70003);
  (70016, 70017); (70070, 70078); (70089, 70092); (70095, 70095); (70191, 70193); (70196, 70196);
  (70198, 70199); (70206, 70206); (70367, 70367); (70371, 70378); (70400, 70401); (70459, 70460);
  (70464, 70464); (70502, 70508); (70512, 70516); (70712, 70719); (70722, 70724); (70726, 70726);
  (70750, 70750); (70835, 70840); (70842, 70842); (70847, 70848); (70850, 70851); (71090, 71093);
  (71100, 71101); (71103, 71104); (71132, 71133); (71219, 71226); (71229, 71229); (71231, 71232);
  (71339, 71339); (71341, 71341); (71344, 71349); (71351, 71351); (71453, 71455); (71458, 71461);
  (71463, 71467); (71727, 71735); (71737, 71738); (71995, 71996); (71998, 71998); (72003, 72003);
  (72148, 72151); (72154, 72155); (72160, 72160); (72193, 72202); (72243, 72248); (72251, 72254);
  (72263, 72263); (72273, 72278); (72281, 72283); (72330, 72342); (72344, 72345); (72752, 72758);
  (72760, 72765); (72767, 72767); (72850, 72871); (72874, 72880); (72882, 72883); (72885, 72886);
  (73009, 73014); (73018, 73018); (73020, 73021); (73023, 73029); (73031, 73031); (73104, 73105);
  (73109, 73109); (73111, 73111); (73459, 73460); (78896, 78904); (92912, 92916); (92976, 92982);
  (92992, 92995); (94031, 94031); (94095, 94111); (94176, 94177); (94179, 94180); (110576, 110579);
  (110581, 110587); (110589, 110590); (113821, 113822); (113824, 113827); (118528, 118573); (118576, 118598);
  (119143, 119145); (119155, 119170); (119173, 119179); (119210, 119213); (119362, 119364); (121344, 121398);
  (121403, 121452); (121461, 121461); (121476, 121476); (121499, 121503); (121505, 121519); (122880, 122886);
  (122888, 122904); (122907, 122913); (122915, 122916); (122918, 122922); (123184, 123197); (123566, 123566);
  (123628, 123631); (125136, 125142); (125252, 125259); (127995, 127999); (917505, 917505); (917536, 917631);
  (917760, 917999)]%num.

Fixpoint lookup (c : N) (t : seq (N * N)) : option N :=
  match t with
  | [::] => None
  | (k, d) :: t' => if c == k then Some d else lookup c t'
  end.

Definition in_ranges (c : N) (rs : seq (N * N)) : bool :=
  has (fun r => N.leb r.1 c && N.leb c r.2) rs.

(* The lower-case form of one character, when that is one character. *)
Definition to_lower (c : N) : N :=
  if is_upper c then (c + 32)%num
  else if lookup c lowercase_table is Some d then d else c.

(* The full lower-case form: U+0130 gives 'i' and the combining dot
   U+0307, every other character gives one character. *)
Definition to_lower_full (c : N) : str :=
  if c == 304%num then [:: 105; 775]%num else [:: to_lower c].

Definition is_cased (c : N) : bool := in_ranges c cased_ranges.

Definition is_case_ignorable (c : N) : bool :=
  in_ranges c case_ignorable_ranges.

Fixpoint skip_case_ignorable (x : str) : str :=
  match x with
  | [::] => [::]
  | c :: x' => if is_case_ignorable c then skip_case_ignorable x' else x
  end.

(* The nearest character of x that is not case-ignorable exists and is
   cased. *)
Definition cased_next (x : str) : bool :=
  if skip_case_ignorable x is c :: _ then is_cased c else false.

(* The capital sigma U+03A3 stands in final position: a cased character
   comes before it and none comes after it, case-ignorable characters
   skipped on both sides.  prev is what stands before, nearest first;
   next is what stands after. *)
Definition final_sigma (prev next : str) : bool :=
  cased_next prev && ~~ cased_next next.

(* What one character becomes: the capital sigma gives the final sigma
   U+03C2 or the small sigma U+03C3 by its place. *)
Definition lower_at (prev : str) (c : N) (next : str) : str :=
  if c == 931%num then
    [:: if final_sigma prev next then 962%num else 963%num]
  else to_lower_full c.

(* x lower-cased where it stands, after prev and before next. *)
Fixpoint lower_ctx (prev x next : str) : str :=
  match x with
  | [::] => [::]
  | c :: x' => lower_at prev c (x' ++ next) ++ lower_ctx (c :: prev) x' next
  end.

(* str.lower() *)
Definition lower (x : str) : str := lower_ctx [::] x [::].

(* What lower() leaves alone and never takes for a capital letter. *)
Definition stable (d : N) : bool :=
  [&& d != 931%num, to_lower_full d == [:: d] & ~~ is_upper d].

(* A character the sigma rule stops at and lower() keeps. *)
Definition neutral (z : N) : bool :=
  [&& ~~ is_cased z, ~~ is_case_ignorable z, z != 931%num
    & to_lower_full z == [:: z]].

(* x.replace(letter, '', 1) for a one-character letter: the first
   occurrence of letter is dropped, and x is returned as it is when letter
   does not occur. *)
Fixpoint replace_first (letter : N) (x : str) : str :=
  match x with
  | [::] => [::]
  | c :: x' => if c == letter then x' else c :: replace_first letter x'
  end.

(* --------------------------------------------------------------------- *)
(* solver.py                                                              *)
(* --------------------------------------------------------------------- *)

(* The for loop of word_works, from the current value of letters_remaining
   and the characters of word still to visit.  `return False` leaves the
   loop; falling off its end reaches `return True`. *)
Fixpoint word_loop (allow_repeats : bool) (letters_remaining : str)
    (word : str) : bool :=
  match word with
  | [::] => true
  | letter :: word' =>
      if letter \in letters_remaining then
        if ~~ allow_repeats then
          word_loop allow_repeats (replace_first letter letters_remaining) word'
        else
          word_loop allow_repeats letters_remaining word'
      else false
  end.

Definition word_works (letters word : str) (allow_repeats : bool) : bool :=
  let letters_remaining := lower letters in
  word_loop allow_repeats letters_remaining word.

(* The for loop of match_words: results grows by append. *)
Fixpoint match_loop (letters : str) (allow_repeats : bool)
    (results : seq str) (dictionary : seq str) : seq str :=
  match dictionary with
  | [::] => results
  | word :: dictionary' =>
      if word_works letters word allow_repeats then
        match_loop letters allow_repeats (rcons results word) dictionary'
      else
        match_loop letters allow_repeats results dictionary'
  end.

Definition match_words (letters : str) (dictionary : seq str)
    (allow_repeats : bool) : seq str :=
  match_loop letters allow_repeats [::] dictionary.

(* --------------------------------------------------------------------- *)
(* match_words over a store of list objects                               *)
(* --------------------------------------------------------------------- *)

(* Strings are immutable values, lists are objects: `dictionary` and
   `results` are references into a store, `results = []` makes a new
   object and `results.append(word)` updates it in place.  The for
   statement reads the dictionary object through an index at every step,
   so what it visits is what the store holds at that time. *)

Definition addr : Type := nat.

(* The list objects alive; an object's address is its position. *)
Definition store : Type := seq (seq str).

Definition load (h : store) (a : addr) : seq str := nth [::] h a.

(* results = [] *)
Definition new_list (h : store) : store * addr := (rcons h [::], size h).

(* obj.append(word) *)
Definition append (h : store) (a : addr) (word : str) : store :=
  set_nth [::] h a (rcons (load h a) word).

(* The for statement over the object at `dictionary`, at index i.  The
   fuel bounds the number of steps: None is a run that has not ended
   within it. *)
Fixpoint for_words (fuel : nat) (letters : str) (allow_repeats : bool)
    (dictionary results : addr) (i : nat) (h : store) : option store :=
  match fuel with
  | 0 => None
  | fuel'.+1 =>
      if i < size (load h dictionary) then
        let word := nth [::] (load h dictionary) i in
        let h' := if word_works letters word allow_repeats
                  then append h results word else h in
        for_words fuel' letters allow_repeats dictionary results i.+1 h'
      else Some h
  end.

(* The store after the call and the reference it returns. *)
Definition match_words_st (fuel : nat) (letters : str) (dictionary : addr)
    (allow_repeats : bool) (h : store) : option (store * addr) :=
  let: (h0, results) := new_list h in
  if for_words fuel letters allow_repeats dictionary results 0 h0 is Some h'
  then Some (h', results) else None.

(* --------------------------------------------------------------------- *)
(* load_dict and the main block of solver.py                              *)
(* --------------------------------------------------------------------- *)

(* The characters str.isspace() is true of. *)
Definition whitespace : seq N :=
  [:: 9; 10; 11; 12; 13; 28; 29; 30; 31; 32; 133; 160; 5760; 8192; 8193;
      8194; 8195; 8196; 8197; 8198; 8199; 8200; 8201; 8202; 8232; 8233;
      8239; 8287; 12288]%num.

Definition is_space (c : N) : bool := c \in whitespace.

(* x.lstrip() *)
Fixpoint lstrip (x : str) : str :=
  match x with
  | [::] => [::]
  | c :: x' => if is_space c then lstrip x' else x
  end.

(* x.rstrip() *)
Definition rstrip (x : str) : str := rev (lstrip (rev x)).

(* x.strip(): whitespace is dropped at both ends, never inside. *)
Definition strip (x : str) : str := rstrip (lstrip x).

Definition LF : N := 10%num.

Definition CR : N := 13%num.

(* What a file opened in text mode hands over: a carriage return, with
   the line feed after it when there is one, is read as one line feed. *)
Fixpoint universal_newlines (text : str) : str :=
  match text with
  | [::] => [::]
  | c :: text' =>
      if c == CR then
        LF :: (if text' is c' :: text'' then
                 if c' == LF then universal_newlines text''
                 else universal_newlines text'
               else [::])
      else c :: universal_newlines text'
  end.

(* The lines of a text whose line ends are line feeds: a line ends with
   its line feed, the last line is the rest of the text when that is not
   empty. *)
Fixpoint readlines_from (line text : str) : seq str :=
  match text with
  | [::] => if line is [::] then [::] else [:: line]
  | c :: text' =>
      if c == LF then rcons line c :: readlines_from [::] text'
      else readlines_from (rcons line c) text'
  end.

(* f.readlines() on a file opened in text mode, from the decoded text of
   the file. *)
Definition readlines (text : str) : seq str :=
  readlines_from [::] (universal_newlines text).

(* The files that can be read, by name, with their decoded text; None is
   a name for which open() raises, or a file whose bytes the decoder
   raises on when it is read. *)
Definition files : Type := str -> option str.

(* None: the exception raised inside the with statement leaves
   load_dict. *)
Definition load_dict (fs : files) (dict_filename : str) : option (seq str) :=
  if fs dict_filename is Some text then
    let content := readlines text in
    let content := [seq lower (strip x) | x <- content] in
    Some content
  else None.

(* The main block, from the parsed arguments: the list it prints, or None
   when load_dict raised. *)
Definition main (fs : files) (dictionary letters : str)
    (reuse_letters : bool) : option (seq str) :=
  if load_dict fs dictionary is Some dictionary' then
    let matching_words := match_words letters dictionary' reuse_letters in
    Some matching_words
  else None.

Arguments to_lower : simpl never.
Arguments to_lower_full : simpl never.
Arguments is_cased : simpl never.
Arguments is_case_ignorable : simpl never.
Arguments is_upper : simpl never.
Arguments is_space : simpl never.
Arguments lower_at : simpl never.

(* The scenarios of the specification, run on the embedding. *)
Example scenario1 : word_works (s "wdro") (s "word") false = true.
Proof. by []. Qed.

Example scenario2 : word_works (s "wdro") (s "wood") false = false.
Proof. by []. Qed.

Example scenario3 : word_works (s "wdro") (s "wood") true = true.
Proof. by []. Qed.

Example scenario4 :
  match_words (s "cat") [:: s "cat"; s "act"; s "at"; s "dog"; s "cats"] false
  = [:: s "cat"; s "act"; s "at"].
Proof. by []. Qed.

Example scenario6 :
  match_words (s "aab") [:: s "aab"; s "aaab"] false = [:: s "aab"].
Proof. by []. Qed.

Example lower_mixed : lower (s "WdRo!") = s "wdro!".
Proof. by []. Qed.

(* U+00C9, the capital E with acute, gives U+00E9. *)
Example lower_latin1 : lower [:: 201]%num = [:: 233]%num.
Proof. by []. Qed.

(* U+0130 gives two characters. *)
Example lower_dotted_I : lower [:: 304]%num = [:: 105; 775]%num.
Proof. by []. Qed.

(* The capital sigma after a capital alpha is final, before it it is
   not. *)
Example lower_sigma_final : lower [:: 913; 931]%num = [:: 945; 962]%num.
Proof. by []. Qed.

Example lower_sigma_first : lower [:: 931; 913]%num = [:: 963; 945]%num.
Proof. by []. Qed.

(* An apostrophe between is skipped, a space is not. *)
Example lower_sigma_skip :
  lower [:: 913; 39; 931; 32; 913; 32; 931]%num
  = [:: 945; 39; 962; 32; 945; 32; 963]%num.
Proof. by []. Qed.

Example store_run :
  match_words_st 3 (s "cat") 1 false [:: [:: s "x"]; [:: s "act"; s "dog"]]
  = Some ([:: [:: s "x"]; [:: s "act"; s "dog"]; [:: s "act"]], 2).
Proof. by []. Qed.

(* Too little fuel: the run has not ended. *)
Example store_run_short :
  match_words_st 2 (s "cat") 1 false [:: [:: s "x"]; [:: s "act"; s "dog"]]
  = None.
Proof. by []. Qed.

Example strip_line :
  strip (9%num :: s "  Ice Cream " ++ [:: 160%num; CR; LF])
  = s "Ice Cream".
Proof. by []. Qed.

Example readlines_text :
  readlines (s "Cat" ++ LF :: LF :: s " act " ++ LF :: s "dog")
  = [:: rcons (s "Cat") LF; [:: LF]; rcons (s " act ") LF; s "dog"].
Proof. by []. Qed.

(* A carriage return ends a line, alone or before a line feed. *)
Example readlines_cr :
  readlines (s "cat" ++ CR :: s "dog" ++ CR :: LF :: s "ox")
  = [:: rcons (s "cat") LF; rcons (s "dog") LF; s "ox"].
Proof. by []. Qed.

Example main_run :
  main (fun name => if name == s "words.txt"
                    then Some (s "Cat" ++ LF :: LF :: s " act " ++ LF :: s "dog")
                    else None)
       (s "words.txt") (s "TAC") false
  = Some [:: s "cat"; [::]; s "act"].
Proof. by []. Qed.

(* --------------------------------------------------------------------- *)
(* The two loops, characterised                                           *)
(* --------------------------------------------------------------------- *)

Section Characterisation.

Implicit Types (c letter : N) (x letters word lr : str).
Implicit Types (dictionary results : seq str) (p : bool).

Lemma replace_firstE letter x : replace_first letter x = rem letter x.
Proof. by elim: x => [|c x IH] //=; rewrite IH. Qed.

Lemma count_gt0_mem c x : (0 < count_mem c x) = (c \in x).
Proof. by rewrite -has_count has_pred1. Qed.

(* Repeat policy: letters_remaining never changes, the loop is a
   membership test on each character of the word. *)
Lemma word_loop_repeat lr word : word_loop true lr word = all (mem lr) word.
Proof. by elim: word => [|c word IH] //=; rewrite IH; case: (c \in lr). Qed.

(* Non-repeat policy: the loop succeeds exactly when the word asks for no
   character more often than letters_remaining has it. *)
Lemma word_loop_consumeP lr word :
  reflect (forall c, count_mem c word <= count_mem c lr)
          (word_loop false lr word).
Proof.
elim: word lr => [|a word IH] lr /=; first by left.
case: ifP => [a_in|a_out]; last first.
  right=> H; move: (H a); rewrite eqxx /=.
  by have /count_memPn -> : a \notin lr by rewrite a_out.
rewrite replace_firstE.
apply: (iffP (IH _)) => H c; move: (H c); rewrite count_mem_rem.
  case: eqP => [<-|_] /=; last by rewrite subn0 add0n.
  by rewrite leq_subRL // count_gt0_mem.
case: eqP => [<-|_] /=; last by rewrite subn0 add0n.
by rewrite leq_subRL // count_gt0_mem.
Qed.

Lemma match_loop_filter letters p results dictionary :
  match_loop letters p results dictionary
  = results ++ [seq word <- dictionary | word_works letters word p].
Proof.
elim: dictionary results => [|word d IH] results /=; first by rewrite cats0.
by case: ifP => _; rewrite IH // -cats1 -catA.
Qed.

Lemma match_wordsE letters dictionary p :
  match_words letters dictionary p
  = [seq word <- dictionary | word_works letters word p].
Proof. by rewrite /match_words match_loop_filter. Qed.

(* A character of the word that the pool lacks makes the loop fail,
   wherever it stands in the word. *)
Lemma word_loop_missing p lr word c :
  c \in word -> c \notin lr -> word_loop p lr word = false.
Proof.
move=> c_word c_lr; case: p.
  by rewrite word_loop_repeat; apply/negbTE/allPn; exists c.
apply/negbTE/negP => /word_loop_consumeP /(_ c).
move/count_memPn: (c_lr) => ->; rewrite leqn0 => /eqP /count_memPn.
by rewrite c_word.
Qed.

(* Both policies look at letters_remaining as a multiset. *)
Lemma word_loop_perm p lr lr' word :
  perm_eq lr lr' -> word_loop p lr word = word_loop p lr' word.
Proof.
move=> eq_lr; case: p.
  by rewrite !word_loop_repeat; apply: eq_all => c; exact: perm_mem.
apply/(sameP (word_loop_consumeP _ _))/(iffP (word_loop_consumeP _ _)) => H c.
  by rewrite (permP eq_lr).
by rewrite -(permP eq_lr).
Qed.

End Characterisation.

(* --------------------------------------------------------------------- *)
(* str.lower()                                                            *)
(* --------------------------------------------------------------------- *)

Section Lower.

Implicit Types (c d z : N) (x y prev next : str).

Lemma table_values :
  all (fun kd => stable kd.2 && ~~ is_space kd.2) lowercase_table.
Proof. by vm_compute. Qed.

Lemma table_keys :
  all (fun kd => N.leb 128 kd.1 && (kd.1 != 304%num)) lowercase_table.
Proof. by vm_compute. Qed.

Lemma whitespace_neutral : all neutral whitespace.
Proof. by vm_compute. Qed.

Lemma whitespace_bounds :
  all (fun c => N.leb c 32 || N.leb 133 c) whitespace.
Proof. by vm_compute. Qed.

Lemma lookup_mem c t d : lookup c t = Some d -> (c, d) \in t.
Proof.
elim: t => [|[k e] t IH] //=; case: eqP => [-> [->] | _ /IH].
  by rewrite mem_head.
by rewrite inE => ->; rewrite orbT.
Qed.

Lemma is_upperP c : reflect (65 <= c <= 90)%num (is_upper c).
Proof.
rewrite /is_upper; apply: (iffP andP) => [[/N.leb_le ? /N.leb_le ?] | [? ?]].
  by [].
by split; apply/N.leb_le.
Qed.

Lemma lookup_ascii c : (c < 128)%num -> lookup c lowercase_table = None.
Proof.
move=> lt_c; case E: (lookup c lowercase_table) => [d|] //.
have /andP [/N.leb_le le_c _] := allP table_keys _ (lookup_mem E).
by move: le_c; rewrite /=; lia.
Qed.

Lemma is_space_bounds d : is_space d -> (d <= 32 \/ 133 <= d)%num.
Proof.
by move/(allP whitespace_bounds) => /orP [] /N.leb_le; auto.
Qed.

Lemma is_space_neutral z : is_space z -> neutral z.
Proof. exact: (allP whitespace_neutral). Qed.

(* Every character to_lower_full gives is stable. *)
Lemma to_lower_full_stable c d : d \in to_lower_full c -> stable d.
Proof.
rewrite /to_lower_full; case: eqP => [_ | ne304].
  by rewrite !inE => /orP [] /eqP ->.
rewrite inE => /eqP ->; rewrite /to_lower.
case up: (is_upper c).
  move/is_upperP: up => [lo hi]; apply/and3P; split.
  - by apply/eqP; lia.
  - rewrite /to_lower_full.
    have -> : ((c + 32)%num == 304%num) = false by apply/eqP; lia.
    have nup : is_upper (c + 32)%num = false by apply/negbTE/is_upperP; lia.
    by rewrite /to_lower nup lookup_ascii //; lia.
  - by apply/is_upperP; lia.
case E: (lookup c lowercase_table) => [e|].
  by have /andP [] := allP table_values _ (lookup_mem E).
apply/and3P; split; last by rewrite up.
  by apply/eqP => c931; rewrite c931 in E.
have ne : (c == 304%num) = false by apply/eqP.
by rewrite /to_lower_full ne /to_lower up E.
Qed.

(* A whitespace character in the lower-case form is the character
   itself. *)
Lemma to_lower_full_space c d :
  d \in to_lower_full c -> is_space d -> d = c.
Proof.
rewrite /to_lower_full; case: eqP => [_ | ne304].
  by rewrite !inE => /orP [] /eqP ->.
rewrite inE => /eqP ->; rewrite /to_lower.
case: is_upperP => [[lo hi] /is_space_bounds | _]; first by lia.
case E: (lookup c lowercase_table) => [e|] //.
have /andP [_ /negP nsp] := allP table_values _ (lookup_mem E).
by move=> sp; case: nsp.
Qed.

Lemma lower_at_stable prev c next d : d \in lower_at prev c next -> stable d.
Proof.
rewrite /lower_at; case: eqP => _; last exact: to_lower_full_stable.
by rewrite inE => /eqP ->; case: ifP.
Qed.

Lemma lower_at_space prev c next d :
  d \in lower_at prev c next -> is_space d -> d = c.
Proof.
rewrite /lower_at; case: eqP => _; last exact: to_lower_full_space.
by rewrite inE => /eqP ->; case: ifP.
Qed.

Lemma size_lower_at prev c next :
  size (lower_at prev c next) = (c == 304%num).+1.
Proof.
rewrite /lower_at /to_lower_full; case: eqP => [-> //|_].
by case: eqP.
Qed.

Lemma lower_at_stable_id prev d next : stable d -> lower_at prev d next = [:: d].
Proof. by case/and3P => ne /eqP E _; rewrite /lower_at (negbTE ne). Qed.

Lemma lower_at_neutral prev z next : neutral z -> lower_at prev z next = [:: z].
Proof. by case/and4P => _ _ ne /eqP E; rewrite /lower_at (negbTE ne). Qed.

Lemma lower_ctx_stable prev x next : all stable (lower_ctx prev x next).
Proof.
elim: x prev => [|c x IH] prev //=; rewrite all_cat IH andbT.
by apply/allP => d; exact: lower_at_stable.
Qed.

Lemma lower_ctx_space prev x next d :
  d \in lower_ctx prev x next -> is_space d -> d \in x.
Proof.
elim: x prev => [|c x IH] prev //=; rewrite mem_cat inE => /orP [d_in | d_in] sp.
  by rewrite (lower_at_space d_in sp) eqxx.
by rewrite (IH _ d_in sp) orbT.
Qed.

Lemma size_lower_ctx prev x next :
  size (lower_ctx prev x next) = size x + count_mem 304%num x.
Proof.
elim: x prev => [|c x IH] prev //=.
by rewrite size_cat size_lower_at IH !addSn addnCA.
Qed.

Lemma lower_ctx_stable_id prev y next :
  all stable y -> lower_ctx prev y next = y.
Proof.
elim: y prev => [|d y IH] prev //= /andP [st_d st_y].
by rewrite lower_at_stable_id // IH.
Qed.

(* Without a capital sigma, lower() works character by character. *)
Lemma lower_ctx_no_sigma prev x next :
  931%num \notin x ->
  lower_ctx prev x next = flatten [seq to_lower_full c | c <- x].
Proof.
elim: x prev => [|c x IH] prev //=; rewrite inE negb_or => /andP [ne nin].
by rewrite IH // /lower_at eq_sym (negbTE ne).
Qed.

Lemma cased_next_cons c x :
  cased_next (c :: x) = if is_case_ignorable c then cased_next x else is_cased c.
Proof. by rewrite /cased_next /=; case: ifP. Qed.

Lemma cased_next_cat x next next' :
  cased_next next = cased_next next' ->
  cased_next (x ++ next) = cased_next (x ++ next').
Proof.
by move=> E; elim: x => [|c x IH] //=; rewrite !cased_next_cons IH.
Qed.

Lemma cased_next_neutral z x : neutral z -> cased_next (z :: x) = false.
Proof.
by case/and4P => nc ni _ _; rewrite cased_next_cons (negbTE ni) (negbTE nc).
Qed.

(* The place of x matters only through the nearest cased character on
   each side. *)
Lemma lower_ctx_ext prev prev' x next next' :
  cased_next prev = cased_next prev' -> cased_next next = cased_next next' ->
  lower_ctx prev x next = lower_ctx prev' x next'.
Proof.
move=> + En; elim: x prev prev' => [|c x IH] prev prev' Ep //=.
rewrite (IH (c :: prev) (c :: prev')) ?cased_next_cons ?Ep //.
by rewrite /lower_at /final_sigma Ep (cased_next_cat x En).
Qed.

Lemma lower_ctx_cat prev x y next :
  lower_ctx prev (x ++ y) next
  = lower_ctx prev x (y ++ next) ++ lower_ctx (rev x ++ prev) y next.
Proof.
elim: x prev => [|c x IH] prev //=.
by rewrite IH rev_cons cat_rcons -!catA.
Qed.

(* lower() does not look across a neutral character. *)
Lemma lower_ctx_cut prev x z y next :
  neutral z ->
  lower_ctx prev (x ++ z :: y) next
  = lower_ctx prev x [::] ++ z :: lower_ctx [::] y next.
Proof.
move=> ntr; rewrite lower_ctx_cat /= lower_at_neutral //=; congr (_ ++ _ :: _).
  by apply: lower_ctx_ext; rewrite // cased_next_neutral.
by apply: lower_ctx_ext; rewrite // cased_next_neutral.
Qed.

Lemma lower_cut x z y : neutral z -> lower (x ++ z :: y) = lower x ++ z :: lower y.
Proof. exact: lower_ctx_cut. Qed.

Lemma lower_cons_neutral z y : neutral z -> lower (z :: y) = z :: lower y.
Proof. by move=> ntr; rewrite -[z :: y]cat0s lower_cut. Qed.

Lemma lower_rcons_neutral x z : neutral z -> lower (rcons x z) = rcons (lower x) z.
Proof. by move=> ntr; rewrite -cats1 lower_cut // cats1. Qed.

Lemma lower_idem x : lower (lower x) = lower x.
Proof. by rewrite /lower lower_ctx_stable_id // lower_ctx_stable. Qed.

Lemma size_lower x : size (lower x) = size x + count_mem 304%num x.
Proof. exact: size_lower_ctx. Qed.

Lemma lower_nil x : (lower x == [::]) = (x == [::]).
Proof. by rewrite -!size_eq0 size_lower addn_eq0; case: x. Qed.

Lemma upper_notin_lower c x : is_upper c -> c \notin lower x.
Proof.
move=> up; apply/negP => /(allP (lower_ctx_stable _ _ _)) /and3P [_ _].
by rewrite up.
Qed.

Lemma mem_lower_space x d : d \in lower x -> is_space d -> d \in x.
Proof. exact: lower_ctx_space. Qed.

(* The first and the last character of lower x come from the first and
   the last character of x. *)
Lemma lower_head c x d y :
  lower (c :: x) = d :: y -> d \in lower_at [::] c x.
Proof.
rewrite /lower /= cats0; move: (size_lower_at [::] c x).
by case: (lower_at [::] c x) => [|e l] //= _ [<- _]; rewrite mem_head.
Qed.

Lemma lower_last x c y d :
  lower (rcons x c) = rcons y d -> d \in lower_at (rev x) c [::].
Proof.
rewrite /lower -cats1 lower_ctx_cat /= !cats0.
move: (size_lower_at (rev x) c [::]).
case/lastP: (lower_at (rev x) c [::]) => [|l e] // _.
by rewrite -rcons_cat => /rcons_inj [_ <-]; rewrite mem_rcons mem_head.
Qed.

End Lower.

(* --------------------------------------------------------------------- *)
(* The store-level run of match_words                                     *)
(* --------------------------------------------------------------------- *)

Section StoreRun.

Implicit Types (h : store) (a d : addr) (acc : seq str) (letters word : str).

Lemma load_rcons_old h acc a : a < size h -> load (rcons h acc) a = load h a.
Proof. by move=> lt_a; rewrite /load nth_rcons lt_a. Qed.

Lemma load_rcons_new h acc : load (rcons h acc) (size h) = acc.
Proof. by rewrite /load nth_rcons ltnn eqxx. Qed.

Lemma set_nth_rcons_last h acc acc' :
  set_nth [::] (rcons h acc) (size h) acc' = rcons h acc'.
Proof. by elim: h => [|o h IH] //=; rewrite IH. Qed.

Lemma append_rcons h acc word :
  append (rcons h acc) (size h) word = rcons h (rcons acc word).
Proof. by rewrite /append load_rcons_new set_nth_rcons_last. Qed.

(* From index i on, with results holding acc, the loop ends within
   size D - i + 1 steps and leaves every older object as it was. *)
Lemma for_words_run fuel letters p h d i acc :
  d < size h -> size (load h d) - i < fuel ->
  for_words fuel letters p d (size h) i (rcons h acc)
  = Some (rcons h (acc ++ [seq word <- drop i (load h d)
                          | word_works letters word p])).
Proof.
move=> lt_d; elim: fuel i acc => [|fuel IH] i acc //= le_fuel.
rewrite load_rcons_old //; case: ltnP => [lt_i|ge_i]; last first.
  by rewrite drop_oversize // cats0.
rewrite (drop_nth [::] lt_i) /=.
have le_fuel' : size (load h d) - i.+1 < fuel.
  by rewrite subnS prednK ?subn_gt0 // in le_fuel *.
case: ifP => _; rewrite ?append_rcons IH //.
by rewrite cat_rcons.
Qed.

Lemma match_words_st_run fuel letters p h d :
  d < size h -> size (load h d) < fuel ->
  match_words_st fuel letters d p h
  = Some (rcons h (match_words letters (load h d) p), size h).
Proof.
move=> lt_d le_fuel; rewrite /match_words_st /new_list.
by rewrite for_words_run ?subn0 // drop0 match_wordsE.
Qed.

End StoreRun.

(* --------------------------------------------------------------------- *)
(* Properties of word_works and match_words                               *)
(* --------------------------------------------------------------------- *)

(** C1: without letter reuse, word_works letters word is true exactly when
    every character c that occurs in word occurs in word no more often
    than in the lower-cased letters. *)
Theorem word_works_counts (letters word : str) :
  word_works letters word false <->
  (forall c, c \in word -> count_mem c word <= count_mem c (lower letters)).
Proof.
rewrite /word_works; split => [/word_loop_consumeP H c _ | H]; first exact: H.
apply/word_loop_consumeP => c.
case c_word: (c \in word); first exact: H.
by move/negbT/count_memPn: c_word => ->.
Qed.

(** C2: with letter reuse, word_works letters word is true exactly when
    every character of word occurs in the lower-cased letters; nothing is
    consumed, so a pool holding a character once allows a word made of
    that character any number of times. *)
Theorem word_works_membership (letters word : str) :
  (word_works letters word true <->
   (forall c, c \in word -> c \in lower letters))
  /\ (forall c n, count_mem c (lower letters) = 1 ->
        word_works letters (nseq n c) true).
Proof.
rewrite /word_works; split.
  by rewrite word_loop_repeat; split => [/allP | H]; last apply/allP.
move=> c n one; rewrite word_loop_repeat; apply/allP => c' /nseqP [-> _].
by rewrite /= -count_gt0_mem one.
Qed.

(** C3: match_words returns the words of dictionary for which word_works
    is true, in the order of dictionary: it is a subsequence of dictionary,
    and a matching word appears in it as often as in dictionary. *)
Theorem match_words_filter (letters : str) (dictionary : seq str) (p : bool) :
  [/\ match_words letters dictionary p
      = [seq word <- dictionary | word_works letters word p],
      subseq (match_words letters dictionary p) dictionary
    & forall word,
        count_mem word (match_words letters dictionary p)
        = if word_works letters word p then count_mem word dictionary else 0].
Proof.
rewrite match_wordsE; split=> // [|word]; first exact: filter_subseq.
rewrite count_filter; case: ifP => ok.
  by apply: eq_count => w /=; case: eqP => // ->.
by rewrite -(@eq_count _ pred0) ?count_pred0 // => w /=; case: eqP => // ->.
Qed.

(** C4: a word accepted without letter reuse is accepted with letter
    reuse. *)
Theorem word_works_monotone (letters word : str) :
  word_works letters word false -> word_works letters word true.
Proof.
rewrite /word_works word_loop_repeat => /word_loop_consumeP H.
apply/allP => c c_word; rewrite /= -count_gt0_mem.
by apply: leq_trans (H c); rewrite count_gt0_mem.
Qed.

Lemma word_works_monotone_witness :
  word_works (s "wdro") (s "word") false
  /\ word_works (s "wdro") (s "word") true.
Proof.
split; first by [].
by apply: (@word_works_monotone (s "wdro") (s "word")).
Defined.

(** C5: with an empty letters string a word is accepted, under either
    policy, only if it is empty, so match_words keeps the empty words of
    the dictionary and nothing else; on the empty pool and the dictionary
    made of 'a' and the empty word, match_words returns the empty word
    alone. *)
Theorem empty_letters (word : str) (dictionary : seq str) (p : bool) :
  [/\ word_works [::] word p = (word == [::]),
      match_words [::] dictionary p = [seq w <- dictionary | w == [::]],
      forall w, w \in match_words [::] dictionary p -> w = [::]
    & match_words [::] [:: s "a"; [::]] false = [:: [::]]].
Proof.
have works w q : word_works [::] w q = (w == [::]) by case: w.
split=> // [|w]; rewrite match_wordsE.
  by apply: eq_filter => w; exact: works.
by rewrite mem_filter works => /andP [/eqP].
Qed.


(** C7: the empty word is accepted for every pool, under either policy. *)
Theorem word_works_empty_word (letters : str) (p : bool) :
  word_works letters [::] p = true.
Proof. by []. Qed.

(** C8: match_words is deterministic and has no side effect: run in any
    two stores on the same letters, the same flag and dictionary objects
    with the same contents, it ends, returns a new list object with the
    same contents in both, and leaves every object that existed before
    the call (the dictionary among them) as it was. *)
Theorem match_words_pure (fuel : nat) (letters : str) (p : bool)
    (h1 h2 : store) (d1 d2 : addr) :
  d1 < size h1 -> d2 < size h2 -> load h1 d1 = load h2 d2 ->
  size (load h1 d1) < fuel ->
  exists out : seq str,
    [/\ match_words_st fuel letters d1 p h1 = Some (rcons h1 out, size h1),
        match_words_st fuel letters d2 p h2 = Some (rcons h2 out, size h2),
        forall a, a < size h1 -> load (rcons h1 out) a = load h1 a
      & forall a, a < size h2 -> load (rcons h2 out) a = load h2 a].
Proof.
move=> lt_d1 lt_d2 eq_d le_fuel.
exists (match_words letters (load h1 d1) p); split.
- exact: match_words_st_run.
- by rewrite eq_d in le_fuel *; exact: match_words_st_run.
- by move=> a; exact: load_rcons_old.
- by move=> a; exact: load_rcons_old.
Qed.

Lemma match_words_pure_witness :
  let h1 : store := [:: [:: s "act"; s "dog"]] in
  let h2 : store := [:: [:: s "x"]; [:: s "act"; s "dog"]; [:: s "act"]] in
  exists out : seq str,
    [/\ match_words_st 3 (s "cat") 0 false h1 = Some (rcons h1 out, size h1),
        match_words_st 3 (s "cat") 1 false h2 = Some (rcons h2 out, size h2),
        forall a, a < size h1 -> load (rcons h1 out) a = load h1 a
      & forall a, a < size h2 -> load (rcons h2 out) a = load h2 a].
Proof.
by apply: (@match_words_pure 3 (s "cat") false
             [:: [:: s "act"; s "dog"]]
             [:: [:: s "x"]; [:: s "act"; s "dog"]; [:: s "act"]] 0 1).
Defined.

(** C9: a word that contains an ASCII capital letter is rejected, whatever
    the pool and the policy; the pool is lower-cased, so the capital is
    never found in it. *)
Theorem word_works_capital (letters word : str) (p : bool) :
  has is_upper word -> word_works letters word p = false.
Proof.
case/hasP => c c_word up; apply: word_loop_missing c_word _.
exact: upper_notin_lower.
Qed.

Lemma word_works_capital_witness :
  has is_upper (s "caT") /\ word_works (s "CATcat") (s "caT") true = false.
Proof.
split; first by [].
by apply: (@word_works_capital (s "CATcat") (s "caT") true).
Defined.

(** C10 (amended): for a pool without the capital sigma U+03A3, the one
    character lower() treats by its place, the pool is a multiset:
    permuting the characters of letters does not change the answer of
    word_works, under either policy. *)
Theorem word_works_perm (letters letters' word : str) (p : bool) :
  931%num \notin letters -> perm_eq letters letters' ->
  word_works letters word p = word_works letters' word p.
Proof.
move=> nsig eq_l; apply: word_loop_perm.
have nsig' : 931%num \notin letters' by rewrite -(perm_mem eq_l).
rewrite /lower !lower_ctx_no_sigma //.
by apply: perm_flatten; apply: perm_map.
Qed.

Lemma word_works_perm_witness :
  [/\ 931%num \notin s "wdro", perm_eq (s "wdro") (s "word")
    & word_works (s "wdro") (s "wood") false
      = word_works (s "word") (s "wood") false].
Proof.
split; [by [] | by [] |].
by apply: (@word_works_perm (s "wdro") (s "word") (s "wood") false).
Defined.

(** C10 as stated fails: the pools U+0391 U+03A3 (capital alpha, capital
    sigma) and U+03A3 U+0391 are permutations of each other; lower() gives
    alpha and the final sigma U+03C2 for the first, the small sigma U+03C3
    and alpha for the second, and the word made of the small sigma is
    rejected with the first and accepted with the second, under either
    policy. *)
Lemma word_works_perm_counterexample :
  [/\ perm_eq [:: 913; 931]%num [:: 931; 913]%num,
      word_works [:: 913; 931]%num [:: 963%num] false = false,
      word_works [:: 931; 913]%num [:: 963%num] false = true,
      word_works [:: 913; 931]%num [:: 963%num] true = false
    & word_works [:: 931; 913]%num [:: 963%num] true = true].
Proof. by []. Qed.

(* --------------------------------------------------------------------- *)
(* Further properties of word_works and match_words                       *)
(* --------------------------------------------------------------------- *)

Section Comparison.

Implicit Types (c : N) (letters word lr : str) (p : bool).

(* A word that asks for less, on a pool that holds more. *)
Lemma word_loop_sub p lr lr' word word' :
  (forall c, count_mem c word' <= count_mem c word) ->
  (forall c, count_mem c lr <= count_mem c lr') ->
  word_loop p lr word -> word_loop p lr' word'.
Proof.
move=> le_w le_lr; case: p.
  rewrite !word_loop_repeat => /allP H; apply/allP => c.
  rewrite /= -!count_gt0_mem => c_word'.
  apply: leq_trans (le_lr c); rewrite count_gt0_mem; apply: H.
  by rewrite -count_gt0_mem; apply: leq_trans (le_w c).
move/word_loop_consumeP => H; apply/word_loop_consumeP => c.
by apply: leq_trans (le_w c) (leq_trans (H c) (le_lr c)).
Qed.

Lemma word_loop_size lr word : word_loop false lr word -> size word <= size lr.
Proof.
elim: word lr => [|c word IH] lr //=; case: ifP => // c_lr.
rewrite replace_firstE => /IH; rewrite size_rem //.
by case: lr c_lr.
Qed.

Lemma word_loop_exact lr word :
  word_loop false lr word && (size word == size lr) = perm_eq word lr.
Proof.
apply/andP/idP => [[] | eq_w]; last first.
  rewrite (perm_size eq_w) eqxx; split=> //.
  by apply/word_loop_consumeP => c; rewrite (permP eq_w).
elim: word lr => [|c word IH] lr /=; first by case: lr.
case: ifP => // c_lr; rewrite replace_firstE => ok /eqP eq_size.
rewrite perm_sym (permPl (perm_to_rem c_lr)) perm_cons perm_sym.
by apply: IH => //; rewrite size_rem // -eq_size.
Qed.

End Comparison.

(** X1: word_works does not look at the order of the characters of the
    word: two words that are anagrams of each other get the same answer. *)
Theorem word_works_anagram (letters word word' : str) (p : bool) :
  perm_eq word word' ->
  word_works letters word p = word_works letters word' p.
Proof.
move=> eq_w; rewrite /word_works.
by apply/idP/idP; apply: word_loop_sub => // c; rewrite (permP eq_w).
Qed.

Lemma word_works_anagram_witness :
  perm_eq (s "cat") (s "act")
  /\ word_works (s "tacx") (s "cat") false
     = word_works (s "tacx") (s "act") false.
Proof.
split; first by [].
by apply: (@word_works_anagram (s "tacx") (s "cat") (s "act") false).
Defined.

(** X2: dropping characters from an accepted word leaves an accepted
    word, under either policy. *)
Theorem word_works_subseq (letters word word' : str) (p : bool) :
  subseq word' word -> word_works letters word p ->
  word_works letters word' p.
Proof.
move=> sub; rewrite /word_works; apply: word_loop_sub => // c.
exact: leq_count_subseq.
Qed.

Lemma word_works_subseq_witness :
  [/\ subseq (s "at") (s "cats"), word_works (s "stac") (s "cats") false
    & word_works (s "stac") (s "at") false].
Proof.
split; [by [] | by [] |].
by apply: (@word_works_subseq (s "stac") (s "cats") (s "at") false).
Defined.

(** X3: for letters without the capital sigma U+03A3, adding such
    letters to the pool, before or after, never turns an accepted word
    into a rejected one. *)
Theorem word_works_more_letters (letters extra word : str) (p : bool) :
  931%num \notin letters ++ extra ->
  word_works letters word p ->
  word_works (letters ++ extra) word p /\ word_works (extra ++ letters) word p.
Proof.
move=> nsig; have nsig' : 931%num \notin extra ++ letters.
  by move: nsig; rewrite !mem_cat orbC.
move: (nsig); rewrite mem_cat negb_or => /andP [nl ne].
rewrite /word_works /lower !lower_ctx_no_sigma // !map_cat !flatten_cat => ok.
by split; apply: word_loop_sub ok => // c; rewrite count_cat ?leq_addr ?leq_addl.
Qed.

Lemma word_works_more_letters_witness :
  [/\ 931%num \notin s "ta" ++ s "Xa", word_works (s "ta") (s "at") false,
      word_works (s "ta" ++ s "Xa") (s "at") false
    & word_works (s "Xa" ++ s "ta") (s "at") false].
Proof.
have [] := @word_works_more_letters (s "ta") (s "Xa") (s "at") false isT isT.
by split.
Defined.

(** X4: without letter reuse an accepted word is never longer than the
    lower-cased letters: than the letters string, with one character more
    for each U+0130 in it. *)
Theorem word_works_size (letters word : str) :
  word_works letters word false ->
  size word <= size letters + count_mem 304%num letters.
Proof. by move/word_loop_size; rewrite size_lower. Qed.

Lemma word_works_size_witness :
  word_works [:: 304%num] [:: 105; 775]%num false
  /\ size [:: 105; 775]%num
     <= size [:: 304%num] + count_mem 304%num [:: 304%num].
Proof.
split; first by [].
by apply: (@word_works_size [:: 304%num] [:: 105; 775]%num).
Defined.

(** X5: without letter reuse, the accepted words as long as the
    lower-cased letters are exactly the rearrangements of the lower-cased
    letters. *)
Theorem word_works_all_letters (letters word : str) :
  word_works letters word false
  && (size word == size letters + count_mem 304%num letters)
  = perm_eq word (lower letters).
Proof. by rewrite /word_works -word_loop_exact size_lower. Qed.

(** X6: without letter reuse, a word is accepted exactly when it is a
    rearrangement of some of the characters of the lower-cased letters,
    picked in place. *)
Theorem word_works_selection (letters word : str) :
  word_works letters word false <->
  exists2 sel : str, subseq sel (lower letters) & perm_eq word sel.
Proof.
rewrite /word_works -count_subseqP.
by split=> [/word_loop_consumeP | H] //; apply/word_loop_consumeP.
Qed.

(** X7: with letter reuse only the set of characters of the lower-cased
    pool counts: two pools with the same characters, however often each
    occurs, give the same answer. *)
Theorem word_works_reuse_set (letters letters' word : str) :
  lower letters =i lower letters' ->
  word_works letters word true = word_works letters' word true.
Proof.
by move=> eq_l; rewrite /word_works !word_loop_repeat; apply: eq_all => c /=.
Qed.

Lemma word_works_reuse_set_witness :
  lower (s "Ab") =i lower (s "bbaa")
  /\ word_works (s "Ab") (s "abba") true
     = word_works (s "bbaa") (s "abba") true.
Proof.
have eq_l : lower (s "Ab") =i lower (s "bbaa").
  have -> : lower (s "Ab") = [:: 97; 98]%num by [].
  have -> : lower (s "bbaa") = [:: 98; 98; 97; 97]%num by [].
  by move=> c; rewrite !inE; case: (c == 97%num); case: (c == 98%num).
split; first exact: eq_l.
exact: (@word_works_reuse_set (s "Ab") (s "bbaa") (s "abba") eq_l).
Defined.

(** X8: match_words on two dictionaries put end to end is the result on
    the first followed by the result on the second: a dictionary can be
    searched in pieces. *)
Theorem match_words_cat (letters : str) (d1 d2 : seq str) (p : bool) :
  match_words letters (d1 ++ d2) p
  = match_words letters d1 p ++ match_words letters d2 p.
Proof. by rewrite !match_wordsE filter_cat. Qed.

(** X9: match_words keeps all of its own output: run again on the list it
    returned, it returns that list. *)
Theorem match_words_idem (letters : str) (dictionary : seq str) (p : bool) :
  match_words letters (match_words letters dictionary p) p
  = match_words letters dictionary p.
Proof. by rewrite !match_wordsE filter_id. Qed.

(** X10: on the same letters and dictionary, the words found without
    letter reuse are a subsequence of the words found with letter reuse. *)
Theorem match_words_reuse_subseq (letters : str) (dictionary : seq str) :
  subseq (match_words letters dictionary false)
         (match_words letters dictionary true).
Proof.
rewrite !match_wordsE.
have -> : [seq w <- dictionary | word_works letters w false]
          = [seq w <- [seq w <- dictionary | word_works letters w true]
            | word_works letters w false].
  rewrite -filter_predI; apply: eq_filter => w /=.
  case ok: (word_works letters w false); rewrite ?andbF //=.
  move: ok; rewrite /word_works word_loop_repeat => /word_loop_consumeP H.
  apply/esym/allP => c c_w; rewrite /= -count_gt0_mem.
  by apply: leq_trans (H c); rewrite count_gt0_mem.
exact: filter_subseq.
Qed.

(* --------------------------------------------------------------------- *)
(* strip, readlines and load_dict                                         *)
(* --------------------------------------------------------------------- *)

Section Normalisation.

Implicit Types (c d : N) (x y line text body rest : str).

Lemma lstrip_head x c y : lstrip x = c :: y -> ~~ is_space c.
Proof.
elim: x => [|a x IH] //=; case: ifP => [_ | sp [<- _]]; first exact: IH.
by rewrite sp.
Qed.

Lemma lstrip_rcons x c :
  lstrip (rcons x c)
  = if all is_space x then lstrip [:: c] else rcons (lstrip x) c.
Proof. by elim: x => [|a x IH] //=; case: ifP. Qed.

Lemma lstrip_all_space x : all is_space x -> lstrip x = [::].
Proof. by elim: x => [|a x IH] //= /andP [-> /IH]. Qed.

Lemma rstrip_cons c y : ~~ is_space c -> rstrip (c :: y) = c :: rstrip y.
Proof.
move=> nsp; rewrite /rstrip rev_cons lstrip_rcons /= (negbTE nsp).
case: ifP => [sp | _]; last by rewrite rev_rcons.
by rewrite lstrip_all_space.
Qed.

Lemma rstrip_rcons_space x c : is_space c -> rstrip (rcons x c) = rstrip x.
Proof. by move=> sp; rewrite /rstrip rev_rcons /= sp. Qed.

Lemma rstrip_rcons_nonspace x c :
  ~~ is_space c -> rstrip (rcons x c) = rcons x c.
Proof.
by move=> nsp; rewrite /rstrip rev_rcons /= (negbTE nsp) rev_cons revK.
Qed.

Lemma mem_lstrip x : {subset lstrip x <= x}.
Proof.
elim: x => [|a x IH] //= c; case: ifP => // _ /IH.
by rewrite inE => ->; rewrite orbT.
Qed.

Lemma mem_strip x : {subset strip x <= x}.
Proof.
move=> c; rewrite /strip /rstrip mem_rev => /mem_lstrip.
by rewrite mem_rev; exact: mem_lstrip.
Qed.

(* The line feed that ends a line goes with the whitespace around it. *)
Lemma strip_rcons_space x c : is_space c -> strip (rcons x c) = strip x.
Proof.
move=> sp; rewrite /strip lstrip_rcons /= sp.
case: ifP => [/lstrip_all_space -> // | _].
by rewrite /rstrip rev_rcons /= sp.
Qed.

Lemma strip_head x c y : strip x = c :: y -> ~~ is_space c.
Proof.
rewrite /strip; case E: (lstrip x) => [|a z] //.
by move/lstrip_head: E => nsp; rewrite rstrip_cons // => -[<-].
Qed.

Lemma strip_last x y c : strip x = rcons y c -> ~~ is_space c.
Proof.
rewrite /strip /rstrip => /(congr1 rev); rewrite revK rev_rcons.
exact: lstrip_head.
Qed.

(* lower() and strip() can be done in either order. *)
Lemma lstrip_lower x : lstrip (lower x) = lower (lstrip x).
Proof.
elim: x => [|c x IH] //; case sp: (is_space c).
  by rewrite lower_cons_neutral ?is_space_neutral //= sp.
rewrite [lstrip (c :: x)]/= sp.
case E: (lower (c :: x)) => [|d y] //=.
case sp_d: (is_space d) => //.
by move: sp; rewrite -(lower_at_space (lower_head E) sp_d) sp_d.
Qed.

Lemma rstrip_lower x : rstrip (lower x) = lower (rstrip x).
Proof.
elim/last_ind: x => [|x c IH] //; case sp: (is_space c).
  by rewrite lower_rcons_neutral ?is_space_neutral // !rstrip_rcons_space.
rewrite rstrip_rcons_nonspace ?sp //.
case/lastP E: (lower (rcons x c)) => [|y d] //.
rewrite rstrip_rcons_nonspace //; apply/negP => sp_d.
by move: sp; rewrite -(lower_at_space (lower_last E) sp_d) sp_d.
Qed.

Lemma strip_lower x : strip (lower x) = lower (strip x).
Proof. by rewrite /strip lstrip_lower rstrip_lower. Qed.

(* Universal newlines *)

Lemma LF_space : is_space LF.
Proof. by []. Qed.

Lemma CR_space : is_space CR.
Proof. by []. Qed.

Lemma un_consE c text :
  universal_newlines (c :: text)
  = if c == CR then
      LF :: (if text is c' :: text'' then
               if c' == LF then universal_newlines text''
               else universal_newlines text
             else [::])
    else c :: universal_newlines text.
Proof. by []. Qed.

Lemma un_cons c text :
  c != CR -> universal_newlines (c :: text) = c :: universal_newlines text.
Proof. by move=> /negbTE ne; rewrite un_consE ne. Qed.

Lemma un_CR_nil : universal_newlines [:: CR] = [:: LF].
Proof. by []. Qed.

Lemma un_CR_LF text :
  universal_newlines (CR :: LF :: text) = LF :: universal_newlines text.
Proof. by []. Qed.

Lemma un_CR_cons c text :
  c != LF ->
  universal_newlines (CR :: c :: text) = LF :: universal_newlines (c :: text).
Proof. by move=> /negbTE ne; rewrite un_consE eqxx ne. Qed.

Lemma un_cat x y :
  CR \notin x -> universal_newlines (x ++ y) = x ++ universal_newlines y.
Proof.
elim: x => [|c x IH] //; rewrite inE negb_or eq_sym => /andP [ne nin].
by rewrite cat_cons !un_cons // IH.
Qed.

Lemma cased_next_un text next :
  cased_next (universal_newlines text ++ next) = cased_next (text ++ next).
Proof.
elim: text => [|c text IH] //; case: (altP (c =P CR)) => [-> | ne].
  by rewrite [RHS]cased_next_neutral // is_space_neutral.
by rewrite un_cons // !cat_cons !cased_next_cons IH.
Qed.

Lemma lower_at_next prev c next next' :
  cased_next next = cased_next next' ->
  lower_at prev c next = lower_at prev c next'.
Proof. by move=> E; rewrite /lower_at /final_sigma E. Qed.

Lemma lower_at_notin prev c next d :
  is_space d -> c != d -> d \notin lower_at prev c next.
Proof.
move=> sp ne; apply/negP => /lower_at_space /(_ sp) E.
by rewrite E eqxx in ne.
Qed.

Lemma lower_ctx_cons prev c x next :
  lower_ctx prev (c :: x) next
  = lower_at prev c (x ++ next) ++ lower_ctx (c :: prev) x next.
Proof. by []. Qed.

(* A lower-cased text starts with a line feed only if the text does. *)
Lemma lower_ctx_head prev c x next :
  c != LF ->
  exists d out, lower_ctx prev (c :: x) next = d :: out /\ d != LF.
Proof.
move=> ne; rewrite lower_ctx_cons.
have := lower_at_notin prev (x ++ next) LF_space ne.
have := size_lower_at prev c (x ++ next).
case: (lower_at _ _ _) => [|d out] // _; rewrite inE negb_or eq_sym.
by case/andP => ned _; exists d, (out ++ lower_ctx (c :: prev) x next).
Qed.

(* lower() and the reading of line ends can be done in either order. *)
Lemma un_lower_ctx prev text next :
  universal_newlines (lower_ctx prev text next)
  = lower_ctx prev (universal_newlines text) next.
Proof.
have CRn := is_space_neutral CR_space; have LFn := is_space_neutral LF_space.
have [n] := ubnP (size text); elim: n text prev => [|n IH] text prev //.
case: text => [|c text] //; rewrite ltnS => le_n.
case: (altP (c =P CR)) => [Ec | ne]; last first.
  rewrite un_cons // !lower_ctx_cons un_cat ?lower_at_notin ?CR_space // IH //.
  by rewrite (lower_at_next _ _ (cased_next_un text next)).
rewrite {c}Ec in le_n *; rewrite lower_ctx_cons lower_at_neutral // cat1s.
case: text le_n => [|c' text] le_n.
  by rewrite un_CR_nil lower_ctx_cons lower_at_neutral.
case: (altP (c' =P LF)) => [Ec' | ne'].
  rewrite {c'}Ec' in le_n *.
  rewrite lower_ctx_cons lower_at_neutral // cat1s !un_CR_LF (IH _ _ (ltnW le_n)).
  rewrite lower_ctx_cons lower_at_neutral // cat1s; congr (_ :: _).
  by apply: lower_ctx_ext; rewrite // !cased_next_neutral.
rewrite [in RHS]un_CR_cons // [in RHS]lower_ctx_cons lower_at_neutral // cat1s.
have [d [out [E ned]]] := lower_ctx_head (CR :: prev) text next ne'.
rewrite E un_CR_cons // -E IH //; congr (_ :: _).
by apply: lower_ctx_ext; rewrite // !cased_next_neutral.
Qed.

Lemma un_lower text :
  universal_newlines (lower text) = lower (universal_newlines text).
Proof. exact: un_lower_ctx. Qed.

(* readlines *)

Lemma readlines_from_consE line c text :
  readlines_from line (c :: text)
  = if c == LF then rcons line c :: readlines_from [::] text
    else readlines_from (rcons line c) text.
Proof. by []. Qed.

Lemma split_first (z : N) x :
  z \in x -> exists body rest, x = body ++ z :: rest /\ z \notin body.
Proof.
elim: x => [|c x IH] //; rewrite inE; case: (altP (z =P c)) => [-> _ | ne /= ].
  by exists [::], x.
case/IH => body [rest [-> nin]]; exists (c :: body), rest.
by rewrite inE negb_or ne nin.
Qed.

Lemma readlines_from_cut line body rest :
  LF \notin body ->
  readlines_from line (body ++ LF :: rest)
  = (line ++ rcons body LF) :: readlines_from [::] rest.
Proof.
elim: body line => [|c body IH] line.
  by rewrite cat0s readlines_from_consE eqxx -cats1.
rewrite inE negb_or eq_sym => /andP [/negbTE ne nin].
by rewrite cat_cons readlines_from_consE ne IH // cat_rcons.
Qed.

Lemma readlines_from_last line body :
  LF \notin body ->
  readlines_from line body
  = if line ++ body is [::] then [::] else [:: line ++ body].
Proof.
elim: body line => [|c body IH] line; first by rewrite cats0.
rewrite inE negb_or eq_sym => /andP [/negbTE ne nin].
by rewrite readlines_from_consE ne IH // cat_rcons.
Qed.

(* What readlines returns: lines without a line feed inside, each ended by
   one, but possibly the last. *)
Lemma readlines_from_line line text l :
  LF \notin line -> l \in readlines_from line text ->
  exists2 body, LF \notin body & l = rcons body LF \/ l = body.
Proof.
elim: text line => [|c text IH] line nLF.
  rewrite /=; case: line nLF => [|a line] // nLF; rewrite inE => /eqP ->.
  by exists (a :: line); auto.
rewrite readlines_from_consE; case: (altP (c =P LF)) => [-> | nc].
  rewrite inE => /orP [/eqP -> | ]; first by exists line; auto.
  exact: IH.
by apply: IH; rewrite mem_rcons inE negb_or eq_sym nc.
Qed.

Lemma size_readlines_from line text :
  LF \notin line ->
  size (readlines_from line text)
  = count_mem LF text + (last (last LF line) text != LF).
Proof.
elim: text line => [|c text IH] line nLF.
  rewrite /=; case: line nLF => [|a line] //= nLF.
  by rewrite (memPn nLF _ (mem_last a line)).
rewrite readlines_from_consE [count_mem _ _]/= [last _ (c :: _)]/=.
case: (altP (c =P LF)) => [-> | nc].
  by rewrite /= IH //= add1n addSn.
have nLF' : LF \notin rcons line c.
  by rewrite mem_rcons inE negb_or eq_sym nc.
by rewrite IH // last_rcons add0n.
Qed.

(* readlines loses nothing but the spelling of the line ends: the lines
   put end to end are the text with its line ends read as line feeds. *)
Lemma flatten_readlines_from line text :
  flatten (readlines_from line text) = line ++ text.
Proof.
elim: text line => [|c text IH] line.
  by rewrite /=; case: line => [|a line] //=; rewrite !cats0.
rewrite readlines_from_consE.
by case: ifP => _; rewrite /= ?IH -cats1 -catA.
Qed.

Lemma LF_notin_lower x : LF \notin x -> LF \notin lower x.
Proof.
by move=> nin; apply/negP => /mem_lower_space /(_ LF_space); rewrite (negbTE nin).
Qed.

(* lower() and the splitting into lines can be done in either order. *)
Lemma readlines_from_lower text :
  readlines_from [::] (lower text)
  = [seq lower l | l <- readlines_from [::] text].
Proof.
have LFn := is_space_neutral LF_space.
have [n] := ubnP (size text); elim: n text => [|n IH] text //.
rewrite ltnS => le_n; case LF_in: (LF \in text); last first.
  move/negbT: LF_in => nin.
  rewrite !readlines_from_last ?LF_notin_lower // !cat0s.
  case: text nin {le_n} => [|c x] // _.
  rewrite -[map _ _]/([:: lower (c :: x)]).
  by have := lower_nil (c :: x); case: (lower (c :: x)).
have [body [rest [Et nin]]] := split_first LF_in.
rewrite Et lower_cut // !readlines_from_cut ?LF_notin_lower // !cat0s /=.
rewrite lower_rcons_neutral // IH //.
by apply: leq_trans le_n; rewrite Et size_cat /= addnS ltnS leq_addl.
Qed.

Lemma readlines_lower text :
  readlines (lower text) = [seq lower l | l <- readlines text].
Proof. by rewrite /readlines un_lower readlines_from_lower. Qed.

Lemma load_dict_lower fs name :
  load_dict (fun n => omap lower (fs n)) name = load_dict fs name.
Proof.
rewrite /load_dict; case: (fs name) => //= text; congr Some.
rewrite readlines_lower -map_comp.
by apply: eq_map => l /=; rewrite strip_lower lower_idem.
Qed.

Lemma load_dict_word fs name words w :
  load_dict fs name = Some words -> w \in words ->
  exists2 body, LF \notin body & w = lower (strip body).
Proof.
rewrite /load_dict; case: (fs name) => // text [<-] /mapP [l l_in ->].
have [body nLF [-> | ->]] := readlines_from_line (isT : LF \notin [::]) l_in.
  by exists body => //; rewrite strip_rcons_space.
by exists body.
Qed.

End Normalisation.

(** X11: load_dict returns one word for each line of the file, blank
    lines included, a line ending at a line feed, at a carriage return or
    at a carriage return followed by a line feed: as many words as the
    text, its line ends read as line feeds, has line feeds, and one more
    when it does not end with one; load_dict raises exactly when reading
    the file does. *)
Theorem load_dict_size (fs : files) (dict_filename : str) :
  omap size (load_dict fs dict_filename)
  = omap (fun text => count_mem LF (universal_newlines text)
                      + (last LF (universal_newlines text) != LF))
         (fs dict_filename).
Proof.
rewrite /load_dict; case: (fs dict_filename) => //= text.
by rewrite size_map /readlines size_readlines_from.
Qed.

(** X12: every word load_dict returns is normalised: it has no capital
    letter, no line feed, and no whitespace at its first or last
    position. *)
Theorem load_dict_normal (fs : files) (dict_filename : str)
    (words : seq str) (w : str) :
  load_dict fs dict_filename = Some words -> w \in words ->
  [/\ ~~ has is_upper w, LF \notin w,
      forall c y, w = c :: y -> ~~ is_space c
    & forall y c, w = rcons y c -> ~~ is_space c].
Proof.
move=> ld w_in; have [body nLF ->] := load_dict_word ld w_in.
split.
- apply/hasPn => c c_in; apply/negP => up.
  by move: (upper_notin_lower (strip body) up); rewrite c_in.
- apply/negP => /mem_lower_space /(_ LF_space) /mem_strip.
  by rewrite (negbTE nLF).
- move=> c y; case E: (strip body) => [|d z] // /lower_head c_in.
  apply/negP => sp; move: (strip_head E).
  by rewrite -(lower_at_space c_in sp) sp.
- move=> y c; case/lastP E: (strip body) => [|z d]; first by case: y.
  move/lower_last => c_in; apply/negP => sp; move: (strip_last E).
  by rewrite -(lower_at_space c_in sp) sp.
Qed.

Lemma load_dict_normal_witness :
  let fs : files := fun _ => Some (s " Cat " ++ [:: LF] ++ s "dOg") in
  load_dict fs (s "words.txt") = Some [:: s "cat"; s "dog"]
  /\ [/\ ~~ has is_upper (s "cat"), LF \notin s "cat",
         forall c y, s "cat" = c :: y -> ~~ is_space c
       & forall y c, s "cat" = rcons y c -> ~~ is_space c].
Proof.
split; first by [].
by apply: (@load_dict_normal (fun _ => Some (s " Cat " ++ [:: LF] ++ s "dOg"))
             (s "words.txt") [:: s "cat"; s "dog"] (s "cat")).
Defined.

(** X13: load_dict does not see the case of the file: on a file whose
    text is lower-cased beforehand it returns the same words. *)
Theorem load_dict_case (fs : files) (dict_filename : str) :
  load_dict (fun name => omap lower (fs name)) dict_filename
  = load_dict fs dict_filename.
Proof. exact: load_dict_lower. Qed.

(** X14: a line of the file made of whitespace only (a blank line) becomes
    the empty word, and main reports the empty word whatever the letters
    and the flag. *)
Theorem main_blank_line (fs : files) (dictionary letters text line : str)
    (reuse_letters : bool) :
  fs dictionary = Some text -> line \in readlines text ->
  all is_space line ->
  exists2 out, main fs dictionary letters reuse_letters = Some out
             & [::] \in out.
Proof.
move=> fs_d l_in sp; rewrite /main /load_dict fs_d.
exists (match_words letters [seq lower (strip x) | x <- readlines text]
          reuse_letters) => //.
rewrite match_wordsE mem_filter /=; apply/mapP; exists line => //.
by rewrite /strip lstrip_all_space.
Qed.

Lemma main_blank_line_witness :
  exists2 out,
    main (fun _ => Some (s "cat" ++ [:: LF; LF] ++ s "dog"))
         (s "words.txt") (s "xyz") false = Some out
  & [::] \in out.
Proof.
by apply: (@main_blank_line (fun _ => Some (s "cat" ++ [:: LF; LF] ++ s "dog"))
             (s "words.txt") (s "xyz") (s "cat" ++ [:: LF; LF] ++ s "dog")
             [:: LF] false).
Defined.

(** X15: the program does not see case: main on a lower-cased file and
    lower-cased letters prints what it prints on the file and letters as
    given. *)
Theorem main_case (fs : files) (dictionary letters : str)
    (reuse_letters : bool) :
  main (fun name => omap lower (fs name)) dictionary (lower letters)
       reuse_letters
  = main fs dictionary letters reuse_letters.
Proof.
rewrite /main load_dict_lower.
case: (load_dict fs dictionary) => // d; congr Some.
by rewrite !match_wordsE; apply: eq_filter => w; rewrite /word_works lower_idem.
Qed.

(** X16: every word main prints has no capital letter and is written with
    characters of the lower-cased letters only; without letter reuse it is
    no longer than the lower-cased letters: than the letters string, with
    one character more for each U+0130 in it. *)
Theorem main_sound (fs : files) (dictionary letters : str)
    (reuse_letters : bool) (out : seq str) (w : str) :
  main fs dictionary letters reuse_letters = Some out -> w \in out ->
  [/\ ~~ has is_upper w, {subset w <= lower letters}
    & ~~ reuse_letters ->
      size w <= size letters + count_mem 304%num letters].
Proof.
rewrite /main; case ld: (load_dict fs dictionary) => [d|] // [<-].
rewrite match_wordsE mem_filter => /andP [ok w_in].
have [body _ Ew] := load_dict_word ld w_in.
split.
- rewrite Ew; apply/hasPn => c c_in; apply/negP => up.
  by move: (upper_notin_lower (strip body) up); rewrite c_in.
- move=> c c_w; apply/negPn/negP => c_out.
  by move: ok; rewrite /word_works (word_loop_missing _ c_w c_out).
- case: reuse_letters ok => // ok _.
  by move/word_loop_size: ok; rewrite size_lower.
Qed.

Lemma main_sound_witness :
  let fs : files := fun _ => Some (s "Cat" ++ [:: LF] ++ s " ACT ") in
  main fs (s "words.txt") (s "TAC") false = Some [:: s "cat"; s "act"]
  /\ [/\ ~~ has is_upper (s "act"), {subset s "act" <= lower (s "TAC")}
       & ~~ false ->
         size (s "act") <= size (s "TAC") + count_mem 304%num (s "TAC")].
Proof.
split; first by [].
by apply: (@main_sound (fun _ => Some (s "Cat" ++ [:: LF] ++ s " ACT "))
             (s "words.txt") (s "TAC") false [:: s "cat"; s "act"] (s "act")).
Defined.

(** X17: with letter reuse, a word made of two parts is accepted exactly
    when both parts are. *)
Theorem word_works_reuse_cat (letters w1 w2 : str) :
  word_works letters (w1 ++ w2) true
  = word_works letters w1 true && word_works letters w2 true.
Proof. by rewrite /word_works !word_loop_repeat all_cat. Qed.
